(** * Ethereum data collector: collection-and-delivery cycle

    A shallow embedding of the two collector variants of the repository,
    [data-collector/collector.py] (message-bus sink, 10 s interval) and
    [data-collector/collector_new.py] (bulk-ingest sink, 300 s interval),
    with the properties of the collection cycle stated and proved over it.

    Conventions of the embedding.
    - A Python call either returns a value or raises: [result].
    - Everything that comes from outside the process (HTTP responses, the
      clock, the sink's verdict, the interpreter's string-hash secret) is an
      explicit argument.
    - What the process does to the outside (log lines, sleeps, sends,
      ingestions) is recorded, in order, in a trace of [event]s.
    - [exn] stands for instances of Python's [Exception].  The signals that
      derive from [BaseException] only ([KeyboardInterrupt], [SystemExit],
      task cancellation) stop the process from outside and are not part of
      the model.
    - Wall-clock readings and durations are exact rationals; text is a
      sequence of 8-bit characters. *)

From Stdlib Require Import ZArith QArith Qminmax List String Ascii Bool Lia.
From Stdlib Require Import DecimalString FinFun Lqa.
Import ListNotations.

Local Open Scope string_scope.
Local Open Scope Z_scope.
Set Warnings "-register-all".

(* ================================================================== *)
(** * Python values, exceptions and the operations the collectors use  *)
(* ================================================================== *)

Module Py.

(** Exceptions, by class.  The argument is what [str(e)] is computed from. *)
Inductive exn : Type :=
| Exception (msg : string)        (* raise Exception(f"...") *)
| KeyError (key_repr : string)    (* d[k] with k absent; holds repr(k) *)
| IndexError (msg : string)
| TypeError (msg : string)
| ValueError (msg : string)
| AttributeError (msg : string)
| ClientError (msg : string)      (* transport failure, timeout, undecodable body *)
| ServiceError (msg : string).    (* failure reported by the delivery sink *)

(** [str(e)]: a [KeyError] shows the repr of the missing key. *)
Definition str_exn (e : exn) : string :=
  match e with
  | KeyError m | Exception m | IndexError m | TypeError m | ValueError m
  | AttributeError m | ClientError m | ServiceError m => m
  end.

(** [repr(k)] of a key written as a plain literal. *)
Definition repr_str (k : string) : string := "'" ++ k ++ "'".

(** Outcome of a call. *)
Inductive result (A : Type) : Type :=
| Returned (a : A)
| Raised (e : exn).
Arguments Returned {A} a.
Arguments Raised {A} e.

Definition bind {A B} (c : result A) (k : A -> result B) : result B :=
  match c with
  | Returned a => k a
  | Raised e => Raised e
  end.

Definition is_raised {A} (c : result A) : bool :=
  match c with Raised _ => true | Returned _ => false end.

(** JSON-shaped Python data: what [response.json()] yields and what the
    collectors assemble.  A dict is an association list in insertion order. *)
Inductive value : Type :=
| VNone
| VBool (b : bool)
| VInt (n : Z)
| VFloat (q : Q)
| VStr (s : string)
| VList (l : list value)
| VDict (d : list (string * value)).

Definition type_name (v : value) : string :=
  match v with
  | VNone => "NoneType"
  | VBool _ => "bool"
  | VInt _ => "int"
  | VFloat _ => "float"
  | VStr _ => "str"
  | VList _ => "list"
  | VDict _ => "dict"
  end.

(** First binding of [k]. *)
Fixpoint lookup (k : string) (d : list (string * value)) : option value :=
  match d with
  | [] => None
  | (k', v) :: d' => if String.eqb k k' then Some v else lookup k d'
  end.

(** The first of [keys] that [d] does not bind. *)
Definition first_missing (keys : list string) (d : list (string * value))
  : option string :=
  find (fun k => match lookup k d with None => true | Some _ => false end) keys.

(** [v[k]] for a string key [k]. *)
Definition subscript (v : value) (k : string) : result value :=
  match v with
  | VDict d =>
      match lookup k d with
      | Some x => Returned x
      | None => Raised (KeyError (repr_str k))
      end
  | VStr _ => Raised (TypeError "string indices must be integers, not 'str'")
  | VList _ => Raised (TypeError "list indices must be integers or slices, not str")
  | _ => Raised (TypeError ("'" ++ type_name v ++ "' object is not subscriptable"))
  end.

(** [v.get(k, default)]: only dicts have the method. *)
Definition get (v : value) (k : string) (default : value) : result value :=
  match v with
  | VDict d =>
      match lookup k d with
      | Some x => Returned x
      | None => Returned default
      end
  | _ => Raised (AttributeError
                   ("'" ++ type_name v ++ "' object has no attribute 'get'"))
  end.

(** Truth value, as tested by [if v:]. *)
Definition truthy (v : value) : bool :=
  match v with
  | VNone => false
  | VBool b => b
  | VInt n => negb (n =? 0)
  | VFloat q => negb (Qeq_bool q 0)
  | VStr s => negb (String.eqb s EmptyString)
  | VList l => match l with [] => false | _ => true end
  | VDict d => match d with [] => false | _ => true end
  end.

(** [len(v)]. *)
Definition len (v : value) : result Z :=
  match v with
  | VStr s => Returned (Z.of_nat (String.length s))
  | VList l => Returned (Z.of_nat (List.length l))
  | VDict d => Returned (Z.of_nat (List.length d))
  | _ => Raised (TypeError ("object of type '" ++ type_name v ++ "' has no len()"))
  end.

(** [str(n)] for an int: decimal, with a minus sign when negative. *)
Definition str_int (n : Z) : string := NilZero.string_of_int (Z.to_int n).

(** [v[i]] for a literal index [i >= 0]. *)
Definition index (v : value) (i : nat) : result value :=
  match v with
  | VList l =>
      match nth_error l i with
      | Some x => Returned x
      | None => Raised (IndexError "list index out of range")
      end
  | VStr s =>
      match String.get i s with
      | Some c => Returned (VStr (String c EmptyString))
      | None => Raised (IndexError "string index out of range")
      end
  | VDict d => Raised (KeyError (str_int (Z.of_nat i)))
  | _ => Raised (TypeError ("'" ++ type_name v ++ "' object is not subscriptable"))
  end.

(** [v[-n:]]: the last [n] items of text or of a list. *)
Definition suffix (n : nat) (v : value) : result value :=
  match v with
  | VStr s =>
      let len := String.length s in
      Returned (VStr (String.substring (len - n) (Nat.min n len) s))
  | VList l => Returned (VList (skipn (List.length l - n) l))
  | VDict _ => Raised (TypeError "unhashable type: 'slice'")
  | _ => Raised (TypeError ("'" ++ type_name v ++ "' object is not subscriptable"))
  end.

Definition dquote : string := String (ascii_of_nat 34) EmptyString.

(** [prefix + v]. *)
Definition concat (prefix : string) (v : value) : result value :=
  match v with
  | VStr s => Returned (VStr (prefix ++ s))
  | _ => Raised (TypeError ("can only concatenate str (not " ++ dquote
                              ++ type_name v ++ dquote ++ ") to str"))
  end.

(** The items that [for x in v] goes through. *)
Definition iter (v : value) : result (list value) :=
  match v with
  | VList l => Returned l
  | VDict d => Returned (map (fun kv => VStr (fst kv)) d)
  | VStr s => Returned (map (fun c => VStr (String c EmptyString)) (list_ascii_of_string s))
  | _ => Raised (TypeError ("'" ++ type_name v ++ "' object is not iterable"))
  end.

(** ** [int(...)]

    Text is converted as CPython does for an 8-bit string: surrounding
    whitespace is dropped, then an optional sign, for base 16 an optional
    [0x]/[0X] prefix (which one underscore may follow), then digits, where
    single underscores may separate digits.  Base 10 refuses more than the
    default limit of 4300 digits. *)

Definition is_space (c : ascii) : bool :=
  let n := Z.of_N (N_of_ascii c) in
  ((9 <=? n) && (n <=? 13)) || (n =? 32) || (n =? 133) || (n =? 160).

Fixpoint lstrip (l : list ascii) : list ascii :=
  match l with
  | c :: l' => if is_space c then lstrip l' else l
  | [] => []
  end.

Definition strip (l : list ascii) : list ascii :=
  rev (lstrip (rev (lstrip l))).

Definition digit_value (base : Z) (c : ascii) : option Z :=
  let n := Z.of_N (N_of_ascii c) in
  let d := if (48 <=? n) && (n <=? 57) then n - 48
           else if (97 <=? n) && (n <=? 122) then n - 87
           else if (65 <=? n) && (n <=? 90) then n - 55
           else 36 in
  if d <? base then Some d else None.

(** Digits with single separating underscores; [prev_us] tells whether the
    previous character was an underscore.  Returns the number and how many
    digits were read. *)
Fixpoint scan_digits (base : Z) (l : list ascii) (prev_us : bool)
         (acc : Z) (count : Z) : option (Z * Z) :=
  match l with
  | [] => if prev_us then None else Some (acc, count)
  | c :: l' =>
      if Ascii.eqb c "_"%char then
        if prev_us then None else scan_digits base l' true acc count
      else
        match digit_value base c with
        | Some d => scan_digits base l' false (acc * base + d) (count + 1)
        | None => None
        end
  end.

Definition skip_prefix (base : Z) (l : list ascii) : list ascii :=
  match l with
  | "0"%char :: x :: l' =>
      if (base =? 16) && (Ascii.eqb x "x"%char || Ascii.eqb x "X"%char) then
        match l' with
        | "_"%char :: l'' => l''
        | _ => l'
        end
      else l
  | _ => l
  end.

Definition max_str_digits : Z := 4300.

Inductive literal : Type :=
| Lit (n : Z)
| Malformed
| TooLong.

Definition parse_int (base : Z) (s : string) : literal :=
  let l := strip (list_ascii_of_string s) in
  let '(sign, l) :=
    match l with
    | "-"%char :: l' => (-1, l')
    | "+"%char :: l' => (1, l')
    | _ => (1, l)
    end in
  match skip_prefix base l with
  | [] => Malformed
  | "_"%char :: _ => Malformed
  | c :: l' =>
      match scan_digits base (c :: l') false 0 0 with
      | Some (n, count) =>
          if (base =? 10) && (max_str_digits <? count) then TooLong
          else Lit (sign * n)
      | None => Malformed
      end
  end.

Definition int_of_text (base : Z) (s : string) : result Z :=
  match parse_int base s with
  | Lit n => Returned n
  | Malformed =>
      Raised (ValueError ("invalid literal for int() with base "
                            ++ str_int base ++ ": '" ++ s ++ "'"))
  | TooLong =>
      Raised (ValueError "Exceeds the limit (4300 digits) for integer string conversion")
  end.

(** [int(v)]: numbers are truncated toward zero, text is read in base 10. *)
Definition int (v : value) : result Z :=
  match v with
  | VInt n => Returned n
  | VBool b => Returned (if b then 1 else 0)
  | VFloat q => Returned (Z.quot (Qnum q) (Zpos (Qden q)))
  | VStr s => int_of_text 10 s
  | _ => Raised (TypeError
                   ("int() argument must be a string, a bytes-like object or a real number, not '"
                      ++ type_name v ++ "'"))
  end.

(** [int(v, 16)]: only text is accepted with an explicit base. *)
Definition int16 (v : value) : result Z :=
  match v with
  | VStr s => int_of_text 16 s
  | _ => Raised (TypeError "int() can't convert non-string with explicit base")
  end.

(** [f"{n:x}"]: lower-case hexadecimal, with a minus sign when negative. *)
Fixpoint hex_digits (fuel : nat) (n : Z) (acc : string) : string :=
  match fuel with
  | O => acc
  | S fuel' =>
      let d := n mod 16 in
      let c := ascii_of_N (Z.to_N (if d <? 10 then 48 + d else 87 + d)) in
      let acc' := String c acc in
      if n / 16 =? 0 then acc' else hex_digits fuel' (n / 16) acc'
  end.

Definition format_hex (n : Z) : string :=
  if n <? 0 then "-" ++ hex_digits (S (Z.to_nat (Z.log2 (- n)))) (- n) EmptyString
  else hex_digits (S (Z.to_nat (Z.log2 n))) n EmptyString.

End Py.

(* ================================================================== *)
(** * The interpreter's string hash                                    *)
(* ================================================================== *)

(** [hash(s)] for text on a 64-bit CPython (3.11 and later): SipHash-1-3
    over the characters of [s], keyed with the two words of the process's
    hash secret.  The secret is drawn once when the interpreter starts: at
    random by default, from a linear congruential generator when
    [PYTHONHASHSEED] is a non-zero number, all zero when it is [0]. *)

Module Hash.

Definition w64 (x : Z) : Z := x mod 2 ^ 64.

Definition rotl (x b : Z) : Z :=
  w64 (Z.lor (Z.shiftl x b) (Z.shiftr x (64 - b))).

Record sipstate : Type := Sip { v0 : Z; v1 : Z; v2 : Z; v3 : Z }.

(** [HALF_ROUND(a,b,c,d,s,t)], returning the new [(a,b,c,d)]. *)
Definition half_round (a b c d s t : Z) : Z * Z * Z * Z :=
  let a := w64 (a + b) in
  let c := w64 (c + d) in
  let b := Z.lxor (rotl b s) a in
  let d := Z.lxor (rotl d t) c in
  let a := rotl a 32 in
  (a, b, c, d).

(** [SINGLE_ROUND(v0,v1,v2,v3)]. *)
Definition single_round (st : sipstate) : sipstate :=
  let '(a, b, c, d) := half_round (v0 st) (v1 st) (v2 st) (v3 st) 13 16 in
  let '(c, b, a, d) := half_round c b a d 17 21 in
  Sip a b c d.

(** A little-endian word from at most eight bytes. *)
Fixpoint le_word (bytes : list Z) : Z :=
  match bytes with
  | [] => 0
  | b :: bytes' => b + 256 * le_word bytes'
  end.

Definition absorb (st : sipstate) (m : Z) : sipstate :=
  let st := Sip (v0 st) (v1 st) (v2 st) (Z.lxor (v3 st) m) in
  let st := single_round st in
  Sip (Z.lxor (v0 st) m) (v1 st) (v2 st) (v3 st).

(** The [while (src_sz >= 8)] loop, then the tail; [fuel] bounds the number
    of whole words.  Returns the state and the remaining bytes. *)
Fixpoint blocks (fuel : nat) (st : sipstate) (bytes : list Z)
  : sipstate * list Z :=
  match fuel with
  | O => (st, bytes)
  | S fuel' =>
      if (8 <=? Z.of_nat (List.length bytes)) then
        blocks fuel' (absorb st (le_word (firstn 8 bytes))) (skipn 8 bytes)
      else (st, bytes)
  end.

Definition siphash13 (k0 k1 : Z) (bytes : list Z) : Z :=
  let n := Z.of_nat (List.length bytes) in
  let b := w64 (Z.shiftl n 56) in
  let st := Sip (Z.lxor k0 0x736f6d6570736575) (Z.lxor k1 0x646f72616e646f6d)
                (Z.lxor k0 0x6c7967656e657261) (Z.lxor k1 0x7465646279746573) in
  let '(st, tail) := blocks (List.length bytes) st bytes in
  let b := Z.lor b (le_word tail) in
  let st := absorb st b in
  let st := Sip (v0 st) (v1 st) (Z.lxor (v2 st) 0xff) (v3 st) in
  let st := single_round (single_round (single_round st)) in
  Z.lxor (Z.lxor (v0 st) (v1 st)) (Z.lxor (v2 st) (v3 st)).

(** The two key words of a process. *)
Record secret : Type := Secret { k0 : Z; k1 : Z }.

(** The unsigned result read as a signed 64-bit [Py_hash_t]. *)
Definition to_signed (x : Z) : Z :=
  if x <? 2 ^ 63 then x else x - 2 ^ 64.

(** [hash(s)] for text: empty text hashes to 0, and -1 is never returned. *)
Definition hash_str (sec : secret) (s : string) : Z :=
  let bytes := map (fun c => Z.of_N (N_of_ascii c)) (list_ascii_of_string s) in
  match bytes with
  | [] => 0
  | _ =>
      let x := to_signed (siphash13 (k0 sec) (k1 sec) bytes) in
      if x =? -1 then -2 else x
  end.

(** The secret of a process started with [PYTHONHASHSEED=seed], [seed <> 0]:
    bytes [(x >> 16) & 0xff] of the generator [x := x * 214013 + 2531011]
    (mod 2^32), the first eight for [k0], the next eight for [k1]. *)
Fixpoint lcg_bytes (n : nat) (x : Z) : list Z :=
  match n with
  | O => []
  | S n' =>
      let x' := (x * 214013 + 2531011) mod 2 ^ 32 in
      Z.land (Z.shiftr x' 16) 0xff :: lcg_bytes n' x'
  end.

Definition secret_of_seed (seed : Z) : secret :=
  if seed =? 0 then Secret 0 0
  else
    let bytes := lcg_bytes 16 seed in
    Secret (le_word (firstn 8 bytes)) (le_word (skipn 8 bytes)).

End Hash.

(* ================================================================== *)
(** * The outside world: HTTP replies, effects                         *)
(* ================================================================== *)

Module Http.
Import Py.

(** A response that arrived: its status, and what [await response.json()]
    gives (it raises when the body is not JSON). *)
Record response : Type := Response { status : Z; json : result value }.

(** Outcome of [session.get(...)]: a response, or a transport failure. *)
Definition reply : Type := result response.

End Http.

Module Effects.
Import Py.

Inductive level : Type := INFO | ERROR.

(** Arguments interpolated into a log line; floats are kept unrendered. *)
Inductive arg : Type :=
| AStr (s : string)
| AInt (n : Z)
| ANum (q : Q)
| AVal (v : value).

Section Events.
(** [payload] is what one delivery carries: an envelope for the message
    bus, a table and its rows for the bulk loader. *)
Variable payload : Type.

(** [Deliver p verdict]: the sink was called with [p] and accepted it
    ([None]) or raised ([Some e]). *)
Inductive event : Type :=
| Log (lvl : level) (template : string) (args : list arg)
| Deliver (p : payload) (verdict : option exn)
| Sleep (secs : Q).

(** A computation: the events it caused, in order, and how it ended.
    Events that happened before an exception stay in the trace. *)
Definition io (A : Type) : Type := list event * result A.

Definition ret {A} (a : A) : io A := ([], Returned a).
Definition lift {A} (r : result A) : io A := ([], r).
Definition emit (ev : event) : io unit := ([ev], Returned tt).

(** A call of the sink, which answers with [verdict]. *)
Definition deliver (p : payload) (verdict : option exn) : io unit :=
  ([Deliver p verdict],
   match verdict with
   | None => Returned tt
   | Some e => Raised e
   end).

Definition iobind {A B} (c : io A) (k : A -> io B) : io B :=
  match c with
  | (t, Returned a) => let '(t', r) := k a in ((t ++ t')%list, r)
  | (t, Raised e) => (t, Raised e)
  end.

(** [try: c  except Exception as e: h e]. *)
Definition try_except {A} (c : io A) (h : exn -> io A) : io A :=
  match c with
  | (t, Raised e) => let '(t', r) := h e in ((t ++ t')%list, r)
  | (t, Returned a) => (t, Returned a)
  end.

Definition trace {A} (c : io A) : list event := fst c.
Definition outcome {A} (c : io A) : result A := snd c.

Definition is_deliver (ev : event) : bool :=
  match ev with Deliver _ _ => true | _ => false end.

Definition is_refusal (ev : event) : bool :=
  match ev with Deliver _ (Some _) => true | _ => false end.

Definition is_sleep (ev : event) : bool :=
  match ev with Sleep _ => true | _ => false end.

Definition deliveries (t : list event) : nat :=
  List.length (filter is_deliver t).

Definition sleeps (t : list event) : list Q :=
  flat_map (fun ev => match ev with Sleep q => [q] | _ => [] end) t.

(** Once the sink has refused a delivery, nothing more is delivered. *)
Fixpoint no_delivery_after_refusal (t : list event) : Prop :=
  match t with
  | [] => True
  | ev :: t' =>
      (is_refusal ev = true -> deliveries t' = 0%nat)
      /\ no_delivery_after_refusal t'
  end.

Definition has_refusal (t : list event) : bool := existsb is_refusal t.

(** A computation stops at a refusal: a refused delivery makes it raise,
    and nothing is delivered after a refusal. *)
Definition stops_at_refusal {A} (c : io A) : Prop :=
  no_delivery_after_refusal (trace c)
  /\ (has_refusal (trace c) = true -> is_raised (outcome c) = true).

(** A handler that only logs and raises again. *)
Definition logs_and_raises {A} (h : exn -> io A) : Prop :=
  forall e, deliveries (trace (h e)) = 0%nat
            /\ sleeps (trace (h e)) = []
            /\ is_raised (outcome (h e)) = true.

(** A computation that does not sleep. *)
Definition sleepless {A} (c : io A) : Prop := sleeps (trace c) = [].
End Events.

Arguments Log {payload} lvl template args.
Arguments Deliver {payload} p verdict.
Arguments deliver {payload} p verdict.
Arguments is_refusal {payload} ev.
Arguments no_delivery_after_refusal {payload} t.
Arguments Sleep {payload} secs.
Arguments ret {payload A} a.
Arguments lift {payload A} r.
Arguments emit {payload} ev.
Arguments iobind {payload A B} c k.
Arguments try_except {payload A} c h.
Arguments trace {payload A} c.
Arguments outcome {payload A} c.
Arguments deliveries {payload} t.
Arguments sleeps {payload} t.
Arguments is_deliver {payload} ev.
Arguments is_sleep {payload} ev.
Arguments has_refusal {payload} t.
Arguments stops_at_refusal {payload A} c.
Arguments logs_and_raises {payload A} h.
Arguments sleepless {payload A} c.

End Effects.

Declare Scope py_scope.
Delimit Scope py_scope with py.
Declare Scope io_scope.
Delimit Scope io_scope with io.

Notation "x <- c ;; k" := (Py.bind c (fun x => k))
  (at level 61, c at next level, right associativity) : py_scope.
Notation "x <- c ;; k" := (Effects.iobind c (fun x => k))
  (at level 61, c at next level, right associativity) : io_scope.
Notation "c ;; k" := (Effects.iobind c (fun _ => k))
  (at level 61, right associativity) : io_scope.

(* ================================================================== *)
(** * First variant: [data-collector/collector.py]                     *)
(* ================================================================== *)

Module Collector.
Import Py Http.
Local Open Scope py_scope.

(** What one collection cycle meets outside the process. *)
Record cycle_world : Type := CycleWorld {
  (* fetch_current_price *)
  price : reply;
  now_price : string;
  (* fetch_network_stats: the gather of the three requests either raises
     or hands back the three responses *)
  stats : result (response * response * response);
  now_stats : string;
  (* fetch_recent_blocks: the eth_blockNumber request, then
     eth_getBlockByNumber for a tag *)
  block_number : reply;
  block_by_tag : string -> reply;
  (* fetch_gas_tracker *)
  gas : reply;
  now_gas : string;
  (* fetch_defi_metrics *)
  defi : reply;
  now_defi : string;
  (* fetch_ethereum_data *)
  now_cycle : string
}.

Definition subscript2 (v : value) (k1 k2 : string) : result value :=
  x <- subscript v k1 ;; subscript x k2.

(** The keys read under ["ethereum"], in the order they are read. *)
Definition price_keys : list string :=
  ["usd"; "btc"; "usd_market_cap"; "usd_24h_vol"; "usd_24h_change"].

Definition fetch_current_price (w : cycle_world) : result value :=
  response <- price w ;;
  if status response =? 200 then
    data <- json response ;;
    price_usd <- subscript2 data "ethereum" "usd" ;;
    price_btc <- subscript2 data "ethereum" "btc" ;;
    market_cap <- subscript2 data "ethereum" "usd_market_cap" ;;
    volume_24h <- subscript2 data "ethereum" "usd_24h_vol" ;;
    change_24h <- subscript2 data "ethereum" "usd_24h_change" ;;
    Returned (VDict [("price_usd", price_usd);
                     ("price_btc", price_btc);
                     ("market_cap", market_cap);
                     ("volume_24h", volume_24h);
                     ("change_24h", change_24h);
                     ("timestamp", VStr (now_price w))])
  else
    Raised (Exception ("Price API error: " ++ str_int (status response))).

(** One entry of [results] in [fetch_network_stats]. *)
Definition stats_result (response : response) : result value :=
  if status response =? 200 then json response
  else Returned (VDict [("error", VStr ("Status " ++ str_int (status response)))]).

Definition fetch_network_stats (w : cycle_world) : result value :=
  responses <- stats w ;;
  let '(resp0, resp1, resp2) := responses in
  r0 <- stats_result resp0 ;;
  r1 <- stats_result resp1 ;;
  r2 <- stats_result resp2 ;;
  total_supply <- get r0 "result" (VStr "0") ;;
  eth_price <- get r1 "result" (VDict []) ;;
  cond <- get r2 "result" VNone ;;
  latest_block <-
    (if truthy cond then
       x <- get r2 "result" (VStr "0") ;; int16 x
     else Returned 0) ;;
  Returned (VDict [("total_supply", total_supply);
                   ("eth_price", eth_price);
                   ("latest_block", VInt latest_block);
                   ("timestamp", VStr (now_stats w))]).

(** The dict appended for one block. *)
Definition block_record (block : value) : result value :=
  number <- (x <- subscript block "number" ;; int16 x) ;;
  hash <- subscript block "hash" ;;
  timestamp <- (x <- subscript block "timestamp" ;; int16 x) ;;
  transaction_count <- (x <- get block "transactions" (VList []) ;; len x) ;;
  gas_used <- (x <- subscript block "gasUsed" ;; int16 x) ;;
  gas_limit <- (x <- subscript block "gasLimit" ;; int16 x) ;;
  miner <- subscript block "miner" ;;
  size <- (x <- subscript block "size" ;; int16 x) ;;
  Returned (VDict [("number", VInt number);
                   ("hash", hash);
                   ("timestamp", VInt timestamp);
                   ("transaction_count", VInt transaction_count);
                   ("gas_used", VInt gas_used);
                   ("gas_limit", VInt gas_limit);
                   ("miner", miner);
                   ("size", VInt size)]).

(** The body of the [for i in range(count)] loop: what the iteration for
    [block_number] appends to [blocks] (nothing, or one record), unless it
    raises. *)
Definition fetch_block (w : cycle_world) (block_number : Z)
  : result (list value) :=
  block_response <- block_by_tag w ("0x" ++ format_hex block_number) ;;
  if status block_response =? 200 then
    block_data <- json block_response ;;
    r <- get block_data "result" VNone ;;
    if truthy r then
      block <- subscript block_data "result" ;;
      rec <- block_record block ;;
      Returned [rec]
    else Returned []
  else Returned [].

(** [range(count)]. *)
Definition range (count : Z) : list Z :=
  map Z.of_nat (seq 0 (Z.to_nat count)).

(** The [for] loop, over the remaining indices, with [blocks] as built so
    far. *)
Fixpoint fetch_blocks_loop (w : cycle_world) (latest_block : Z)
         (indices : list Z) (blocks : list value) : result (list value) :=
  match indices with
  | [] => Returned blocks
  | i :: rest =>
      new <- fetch_block w (latest_block - i) ;;
      fetch_blocks_loop w latest_block rest (blocks ++ new)
  end.

Definition fetch_recent_blocks (w : cycle_world) (count : Z) : result value :=
  response <- block_number w ;;
  if negb (status response =? 200) then
    Raised (Exception ("Block number API error: " ++ str_int (status response)))
  else
    data <- json response ;;
    latest_block <- (x <- subscript data "result" ;; int16 x) ;;
    blocks <- fetch_blocks_loop w latest_block (range count) [] ;;
    Returned (VList blocks).

Definition default_count : Z := 5.

(** What an iteration of the loop appended to [blocks]. *)
Definition appended (r : result (list value)) : list value :=
  match r with
  | Returned l => l
  | Raised _ => []
  end.

(** The eth_blockNumber request was answered, with status 200 and a body
    whose ["result"] reads as [latest] in base 16. *)
Definition latest_block_is (w : cycle_world) (latest : Z) : Prop :=
  exists r data,
    block_number w = Returned r
    /\ status r = 200
    /\ json r = Returned data
    /\ (x <- subscript data "result" ;; int16 x) = Returned latest.

(** [int(fields.get(k, 0))]. *)
Definition int_or_zero (fields : value) (k : string) : result Z :=
  x <- get fields k (VInt 0) ;; int x.

Definition fetch_gas_tracker (w : cycle_world) : result value :=
  response <- gas w ;;
  if status response =? 200 then
    data <- json response ;;
    result <- get data "result" (VDict []) ;;
    safe <- int_or_zero result "SafeGasPrice" ;;
    standard <- int_or_zero result "StandardGasPrice" ;;
    fast <- int_or_zero result "FastGasPrice" ;;
    Returned (VDict [("safe_gas_price", VInt safe);
                     ("standard_gas_price", VInt standard);
                     ("fast_gas_price", VInt fast);
                     ("timestamp", VStr (now_gas w))])
  else
    Raised (Exception ("Gas tracker API error: " ++ str_int (status response))).

(** [{"total_value_locked": 0, "error": msg}]. *)
Definition defi_failure (msg : string) : value :=
  VDict [("total_value_locked", VInt 0); ("error", VStr msg)].

(** The [try] block of [fetch_defi_metrics]. *)
Definition defi_request (w : cycle_world) : result value :=
  response <- defi w ;;
  if status response =? 200 then
    data <- json response ;;
    total <- get data "total" (VInt 0) ;;
    Returned (VDict [("total_value_locked", total);
                     ("timestamp", VStr (now_defi w))])
  else
    Returned (defi_failure ("Status " ++ str_int (status response))).

Definition fetch_defi_metrics (w : cycle_world) : result value :=
  match defi_request w with
  | Returned v => Returned v
  | Raised e => Returned (defi_failure (str_exn e))
  end.

(** The combined record of one cycle. *)
Record CombinedRecord : Type := Combined {
  timestamp : string;
  data_version : string;
  source : string;
  price_data : value;
  network_stats : value;
  recent_blocks : value;
  gas_data : value;
  defi_metrics : value;
  errors : list string
}.

(** [results[i]]. *)
Definition item (results : list (result value)) (i : nat)
  : result (result value) :=
  match nth_error results i with
  | Some r => Returned r
  | None => Raised (IndexError "list index out of range")
  end.

(** [r if not isinstance(r, Exception) else None]. *)
Definition slot (r : result value) : value :=
  match r with
  | Returned v => v
  | Raised _ => VNone
  end.

(** [[str(r) for r in results if isinstance(r, Exception)]]. *)
Definition error_strings (results : list (result value)) : list string :=
  flat_map (fun r => match r with
                     | Raised e => [str_exn e]
                     | Returned _ => []
                     end) results.

(** The assembly of [combined_data] from what [asyncio.gather(...,
    return_exceptions=True)] hands back: per task, its value or the
    exception it raised. *)
Definition combine (now : string) (results : list (result value))
  : result CombinedRecord :=
  r0 <- item results 0 ;;
  r1 <- item results 1 ;;
  r2 <- item results 2 ;;
  r3 <- item results 3 ;;
  r4 <- item results 4 ;;
  Returned {| timestamp := now;
              data_version := "1.0";
              source := "ethereum_collector";
              price_data := slot r0;
              network_stats := slot r1;
              recent_blocks := slot r2;
              gas_data := slot r3;
              defi_metrics := slot r4;
              errors := error_strings results |}.

(** The five tasks, settled. *)
Definition gather (w : cycle_world) : list (result value) :=
  [fetch_current_price w;
   fetch_network_stats w;
   fetch_recent_blocks w default_count;
   fetch_gas_tracker w;
   fetch_defi_metrics w].

Definition fetch_ethereum_data (w : cycle_world) : result CombinedRecord :=
  combine (now_cycle w) (gather w).

(** ** Delivery *)

Record EventData : Type := {
  body : CombinedRecord;              (* what json.dumps serialises *)
  properties : list (string * string)
}.

(** One call of [producer_client.send_batch]. *)
Record send_batch : Type := SendBatch {
  batch : list EventData;
  partition_key_arg : string
}.

Import Effects.
Local Open Scope io_scope.

(** [str(hash(data["timestamp"]) % 10)], in a process whose hash secret is
    [sec].  Python's [%] takes the sign of the divisor, as [Z.modulo]. *)
Definition partition_key (sec : Hash.secret) (timestamp : string) : string :=
  str_int (Hash.hash_str sec timestamp mod 10).

(** [sink] is the verdict of the message bus on the batch: accepted, or the
    exception it raises. *)
Definition send_to_event_hub (sec : Hash.secret) (data : CombinedRecord)
           (sink : option exn) : io send_batch unit :=
  try_except
    (let key := partition_key sec (timestamp data) in
     let event_data :=
       {| body := data;
          properties := [("source", "ethereum_collector");
                         ("version", "1.0");
                         ("data_type", "ethereum_metrics")] |} in
     deliver (SendBatch [event_data] key) sink ;;
     emit (Log INFO "Data sent to Event Hub successfully at {}"
               [AStr (timestamp data)]))
    (fun e =>
       emit (Log ERROR "Failed to send data to Event Hub: {}" [AStr (str_exn e)]) ;;
       lift (Raised e)).

(** ** The collection loop *)

(** What one iteration of the loop meets: the cycle's world, the sink's
    verdict, and the two readings of [time.time()]. *)
Record tick_world : Type := TickWorld {
  cycle : cycle_world;
  sink : option exn;
  start_time : Q;
  end_time : Q
}.

(** [max(a, b)]: [a], unless [b] is greater. *)
Definition max (a b : Q) : Q := if Qle_bool b a then a else b.

Definition backoff : Q := 5.

(** The [try] block of the loop. *)
Definition tick_body (interval_seconds : Z) (sec : Hash.secret) (w : tick_world)
  : io send_batch unit :=
  data <- lift (fetch_ethereum_data (cycle w)) ;;
  send_to_event_hub sec data (sink w) ;;
  let processing_time := (end_time w - start_time w)%Q in
  emit (Log INFO "Collection cycle completed in {:.2f}s" [ANum processing_time]) ;;
  let sleep_time := max 0 (inject_Z interval_seconds - processing_time)%Q in
  emit (Sleep sleep_time).

(** The body of [while True]. *)
Definition tick (interval_seconds : Z) (sec : Hash.secret) (w : tick_world)
  : io send_batch unit :=
  try_except (tick_body interval_seconds sec w)
    (fun e =>
       emit (Log ERROR "Error in collection loop: {}" [AStr (str_exn e)]) ;;
       emit (Sleep backoff)).

(** The first [length ws] iterations of [while True]; an exception leaving
    an iteration would end the loop. *)
Fixpoint iterate (interval_seconds : Z) (sec : Hash.secret)
         (ws : list tick_world) : io send_batch unit :=
  match ws with
  | [] => ret tt
  | w :: ws' => tick interval_seconds sec w ;; iterate interval_seconds sec ws'
  end.

(** The partition keys of the batches handed to the sink in a trace. *)
Definition keys_sent (t : list (event send_batch)) : list string :=
  flat_map (fun ev => match ev with
                      | Deliver p _ => [partition_key_arg p]
                      | _ => []
                      end) t.

Definition run_collection_loop (interval_seconds : Z) (sec : Hash.secret)
           (ws : list tick_world) : io send_batch unit :=
  emit (Log INFO "Starting Ethereum data collection with {}s interval"
            [AInt interval_seconds]) ;;
  iterate interval_seconds sec ws.

End Collector.

(* ================================================================== *)
(** * Second variant: [data-collector/collector_new.py]                *)
(* ================================================================== *)

Module CollectorNew.
Import Py Http Effects.

(** One call of [kusto_client.execute] with an inline ingestion command. *)
Record ingestion : Type := Ingestion {
  database : value;
  table_name : string;
  rows : list value
}.

(** What the iteration of the contract loop for one contract meets. *)
Record contract_world : Type := ContractWorld {
  latest_block : reply;                 (* get_latest_block *)
  logs : value -> Z -> reply;           (* getLogs for an address, from a block *)
  now_log : nat -> string;              (* clock reading for the n-th log *)
  ingest_transfers : option exn
}.

(** What one collection cycle meets; [config] is the content of
    [config.json]. *)
Record cycle_world : Type := CycleWorld {
  config : value;
  price : reply;
  now_price : string;
  ingest_price : option exn;
  gas : reply;
  now_gas : string;
  ingest_gas : option exn;
  contracts : nat -> contract_world
}.

Definition subscript2 (v : value) (k1 k2 : string) : result value :=
  Py.bind (subscript v k1) (fun x => subscript x k2).

Local Open Scope io_scope.
Local Abbreviation io := (Effects.io ingestion).

(** The keys read under ["ethereum"], in the order they are read. *)
Definition price_keys : list string :=
  ["usd"; "usd_market_cap"; "usd_24h_vol"; "usd_24h_change"].

(** The [try] block of [collect_eth_price_data]. *)
Definition price_request (w : cycle_world) : io value :=
  response <- lift (price w) ;;
  data <- lift (json response) ;;
  price_usd <- lift (subscript2 data "ethereum" "usd") ;;
  market_cap <- lift (subscript2 data "ethereum" "usd_market_cap") ;;
  volume_24h <- lift (subscript2 data "ethereum" "usd_24h_vol") ;;
  change_24h <- lift (subscript2 data "ethereum" "usd_24h_change") ;;
  emit (Log INFO "Collected ETH price: ${}" [AVal price_usd]) ;;
  ret (VDict [("timestamp", VStr (now_price w));
              ("price_usd", price_usd);
              ("market_cap", market_cap);
              ("volume_24h", volume_24h);
              ("change_24h", change_24h)]).

Definition collect_eth_price_data (w : cycle_world) : io value :=
  try_except (price_request w)
    (fun e =>
       emit (Log ERROR "Error collecting price data: {}" [AStr (str_exn e)]) ;;
       lift (Raised e)).

Definition int_field (data : value) (k1 k2 : string) : result Z :=
  Py.bind (subscript2 data k1 k2) int.

(** The [try] block of [collect_gas_data]. *)
Definition gas_request (w : cycle_world) : io value :=
  response <- lift (gas w) ;;
  data <- lift (json response) ;;
  safe <- lift (int_field data "result" "SafeGasPrice") ;;
  standard <- lift (int_field data "result" "StandardGasPrice") ;;
  fast <- lift (int_field data "result" "FastGasPrice") ;;
  emit (Log INFO "Collected gas data - Fast: {} gwei" [AInt fast]) ;;
  ret (VDict [("timestamp", VStr (now_gas w));
              ("safe_gas_price", VInt safe);
              ("standard_gas_price", VInt standard);
              ("fast_gas_price", VInt fast)]).

Definition collect_gas_data (w : cycle_world) : io value :=
  _ <- lift (subscript2 (config w) "etherscan" "api_key") ;;
  try_except (gas_request w)
    (fun e =>
       emit (Log ERROR "Error collecting gas data: {}" [AStr (str_exn e)]) ;;
       lift (Raised e)).

Definition get_latest_block (w : cycle_world) (c : contract_world) : result Z :=
  Py.bind (subscript2 (config w) "etherscan" "api_key") (fun _ =>
  Py.bind (latest_block c) (fun response =>
  Py.bind (json response) (fun data =>
  Py.bind (subscript data "result") int16))).

(** [int(log[k], 16) if log.get(k) else None]. *)
Definition optional_hex (log : value) (k : string) : result value :=
  Py.bind (get log k VNone) (fun present =>
  if truthy present then
    Py.bind (Py.bind (subscript log k) int16) (fun n => Returned (VInt n))
  else Returned VNone).

(** ["0x" + log["topics"][i][-40:]]. *)
Definition topic_address (log : value) (i : nat) : result value :=
  Py.bind (subscript log "topics") (fun topics =>
  Py.bind (index topics i) (fun topic =>
  Py.bind (suffix 40 topic) (concat "0x"))).

(** The dict built for one log entry. *)
Definition transfer_record (now : string) (log : value) : result value :=
  Py.bind (subscript log "transactionHash") (fun transaction_hash =>
  Py.bind (Py.bind (subscript log "blockNumber") int16) (fun block_number =>
  Py.bind (subscript log "address") (fun contract_address =>
  Py.bind (topic_address log 1) (fun from_address =>
  Py.bind (topic_address log 2) (fun to_address =>
  Py.bind (Py.bind (subscript log "data") int16) (fun val =>
  Py.bind (optional_hex log "gasPrice") (fun gas_price =>
  Py.bind (optional_hex log "gasUsed") (fun gas_used =>
  Returned (VDict [("timestamp", VStr now);
                   ("transaction_hash", transaction_hash);
                   ("block_number", VInt block_number);
                   ("contract_address", contract_address);
                   ("from_address", from_address);
                   ("to_address", to_address);
                   ("value", VInt val);
                   ("gas_price", gas_price);
                   ("gas_used", gas_used)]))))))))).

(** The [for log in ...] loop; [n] counts the entries already handled. *)
Fixpoint transfers_loop (c : contract_world) (n : nat) (entries : list value)
  : result (list value) :=
  match entries with
  | [] => Returned []
  | log :: rest =>
      Py.bind (transfer_record (now_log c n) log) (fun transfer =>
      Py.bind (transfers_loop c (S n) rest) (fun transfers =>
      Returned (transfer :: transfers)))
  end.

(** The [try] block of [collect_erc20_transfers]. *)
Definition transfers_request (c : contract_world) (contract_address : value)
           (from_block : Z) : io (list value) :=
  response <- lift (logs c contract_address from_block) ;;
  data <- lift (json response) ;;
  entries <- lift (Py.bind (get data "result" (VList [])) iter) ;;
  transfers <- lift (transfers_loop c 0 entries) ;;
  emit (Log INFO "Collected {} ERC20 transfers"
            [AInt (Z.of_nat (List.length transfers))]) ;;
  ret transfers.

(** [collect_erc20_transfers(session, contract_address)], with [from_block]
    left to its default. *)
Definition collect_erc20_transfers (w : cycle_world) (c : contract_world)
           (contract_address : value) : io (list value) :=
  latest <- lift (get_latest_block w c) ;;
  let from_block := latest - 100 in
  _ <- lift (subscript2 (config w) "etherscan" "api_key") ;;
  try_except (transfers_request c contract_address from_block)
    (fun e =>
       emit (Log ERROR "Error collecting ERC20 transfers: {}" [AStr (str_exn e)]) ;;
       lift (Raised e)).

(** [verdict] is what the store answers to the command: accepted, or the
    exception raised ([ServiceError] stands for [KustoServiceError]). *)
Definition ingest_to_kusto (w : cycle_world) (data : list value)
           (table : string) (verdict : option exn) : io unit :=
  try_except
    (db <- lift (subscript2 (config w) "kusto" "database") ;;
     deliver (Ingestion db table data) verdict ;;
     emit (Log INFO "Ingested {} records to {}"
               [AInt (Z.of_nat (List.length data)); AStr table]))
    (fun e =>
       match e with
       | ServiceError _ =>
           emit (Log ERROR "Kusto ingestion error: {}" [AStr (str_exn e)]) ;;
           lift (Raised e)
       | _ =>
           emit (Log ERROR "Error ingesting data: {}" [AStr (str_exn e)]) ;;
           lift (Raised e)
       end).

(** The [for contract in ...] loop; [n] counts the contracts already
    handled. *)
Fixpoint contracts_loop (w : cycle_world) (n : nat) (cs : list value)
  : io unit :=
  match cs with
  | [] => ret tt
  | contract :: rest =>
      let c := contracts w n in
      address <- lift (subscript contract "address") ;;
      transfers <- collect_erc20_transfers w c address ;;
      (match transfers with
       | [] => ret tt
       | _ => ingest_to_kusto w transfers "erc20_transfers_raw" (ingest_transfers c)
       end) ;;
      contracts_loop w (S n) rest
  end.

Definition run_collection_cycle (w : cycle_world) : io unit :=
  try_except
    (price_data <- collect_eth_price_data w ;;
     ingest_to_kusto w [price_data] "eth_price_raw" (ingest_price w) ;;
     gas_data <- collect_gas_data w ;;
     ingest_to_kusto w [gas_data] "eth_gas_raw" (ingest_gas w) ;;
     cs <- lift (Py.bind (get (config w) "erc20_contracts" (VList [])) iter) ;;
     contracts_loop w 0 cs ;;
     emit (Log INFO "Collection cycle completed successfully" []))
    (fun e =>
       emit (Log ERROR "Collection cycle failed: {}" [AStr (str_exn e)]) ;;
       lift (Raised e)).

Definition backoff : Q := 60.

(** The [try] block of the loop. *)
Definition tick_body (interval_seconds : Z) (w : cycle_world) : io unit :=
  run_collection_cycle w ;;
  emit (Sleep (inject_Z interval_seconds)).

(** The body of [while True]. *)
Definition tick (interval_seconds : Z) (w : cycle_world) : io unit :=
  try_except (tick_body interval_seconds w)
    (fun e =>
       emit (Log ERROR "Error in continuous collection: {}" [AStr (str_exn e)]) ;;
       emit (Sleep backoff)).

Fixpoint iterate (interval_seconds : Z) (ws : list cycle_world) : io unit :=
  match ws with
  | [] => ret tt
  | w :: ws' => tick interval_seconds w ;; iterate interval_seconds ws'
  end.

Definition run_continuous (interval_seconds : Z) (ws : list cycle_world)
  : io unit :=
  emit (Log INFO "Starting continuous collection (interval: {}s)"
            [AInt interval_seconds]) ;;
  iterate interval_seconds ws.

End CollectorNew.

(* ================================================================== *)
(** * Sample replies and worlds                                        *)
(* ================================================================== *)

Module Samples.
Import Py Http.

Definition ok (body : value) : reply := Returned (Response 200 (Returned body)).
Definition with_status (code : Z) (body : value) : reply :=
  Returned (Response code (Returned body)).
Definition unreachable : reply := Raised (ClientError "Cannot connect to host").

Definition t0 : string := "2024-01-01T00:00:00+00:00".

(** [{"ethereum":{"usd":3000,"btc":0.05,"usd_market_cap":3.6e11,
      "usd_24h_vol":1.2e10,"usd_24h_change":2.5}}] *)
Definition price_body : value :=
  VDict [("ethereum",
          VDict [("usd", VInt 3000);
                 ("btc", VFloat (5 # 100));
                 ("usd_market_cap", VFloat 360000000000);
                 ("usd_24h_vol", VFloat 12000000000);
                 ("usd_24h_change", VFloat (25 # 10))])].

(** [{"result":{"SafeGasPrice":"10","StandardGasPrice":"15",
      "FastGasPrice":"25"}}] *)
Definition gas_body : value :=
  VDict [("result",
          VDict [("SafeGasPrice", VStr "10");
                 ("StandardGasPrice", VStr "15");
                 ("FastGasPrice", VStr "25")])].

(** The block explorer's answer when it refuses a request. *)
Definition rate_limited_body : value :=
  VDict [("status", VStr "0");
         ("message", VStr "NOTOK");
         ("result", VStr "Max rate limit reached")].

(** A block as [eth_getBlockByNumber] returns it, with number [n]. *)
Definition block_body (n : Z) : value :=
  VDict [("jsonrpc", VStr "2.0");
         ("id", VInt 1);
         ("result",
          VDict [("number", VStr ("0x" ++ format_hex n));
                 ("hash", VStr "0xabc");
                 ("timestamp", VStr "0x65920080");
                 ("transactions", VList [VStr "0x01"; VStr "0x02"]);
                 ("gasUsed", VStr "0x5208");
                 ("gasLimit", VStr "0x1c9c380");
                 ("miner", VStr "0xdef");
                 ("size", VStr "0x400")])].

(** Two combined records of the same instant. *)
Definition all_failed : Collector.CombinedRecord :=
  {| Collector.timestamp := t0;
     Collector.data_version := "1.0";
     Collector.source := "ethereum_collector";
     Collector.price_data := VNone;
     Collector.network_stats := VNone;
     Collector.recent_blocks := VNone;
     Collector.gas_data := VNone;
     Collector.defi_metrics := VNone;
     Collector.errors := ["Price API error: 500"; "Cannot connect to host"] |}.

Definition gas_only : Collector.CombinedRecord :=
  {| Collector.timestamp := t0;
     Collector.data_version := "1.0";
     Collector.source := "ethereum_collector";
     Collector.price_data := VNone;
     Collector.network_stats := VNone;
     Collector.recent_blocks := VList [];
     Collector.gas_data := VDict [("safe_gas_price", VInt 10)];
     Collector.defi_metrics := VNone;
     Collector.errors := [] |}.

(** A first-variant world with the given replies and a fixed clock. *)
Definition world (price gas defi block_number : reply)
           (block_by_tag : string -> reply) : Collector.cycle_world :=
  {| Collector.price := price;
     Collector.now_price := t0;
     Collector.stats := Raised (ClientError "Cannot connect to host");
     Collector.now_stats := t0;
     Collector.block_number := block_number;
     Collector.block_by_tag := block_by_tag;
     Collector.gas := gas;
     Collector.now_gas := t0;
     Collector.defi := defi;
     Collector.now_defi := t0;
     Collector.now_cycle := t0 |}.

(** The block explorer: the latest block is 0x64, every block is served,
    except that the request for the tag [bad] ends as [r]. *)
Definition explorer (bad : string) (r : reply) : Collector.cycle_world :=
  world unreachable unreachable unreachable
        (ok (VDict [("jsonrpc", VStr "2.0"); ("id", VInt 83);
                    ("result", VStr "0x64")]))
        (fun tag =>
           if String.eqb tag bad then r
           else match int16 (VStr tag) with
                | Returned n => ok (block_body n)
                | Raised _ => with_status 400 VNone
                end).

(** Nothing can be reached. *)
Definition offline : Collector.cycle_world :=
  world unreachable unreachable unreachable unreachable (fun _ => unreachable).

(** A tick with nothing reachable, the sink's verdict, and the elapsed
    time of the cycle's work. *)
Definition offline_tick (sink : option exn) (elapsed : Q)
  : Collector.tick_world :=
  {| Collector.cycle := offline;
     Collector.sink := sink;
     Collector.start_time := 1704067200;
     Collector.end_time := 1704067200 + elapsed |}.

Definition new_config : value :=
  VDict [("etherscan", VDict [("api_key", VStr "KEY")]);
         ("kusto", VDict [("cluster_uri", VStr "https://cluster");
                          ("database", VStr "ethereum")]);
         ("mode", VStr "continuous")].

Definition no_contract : CollectorNew.contract_world :=
  {| CollectorNew.latest_block := unreachable;
     CollectorNew.logs := fun _ _ => unreachable;
     CollectorNew.now_log := fun _ => t0;
     CollectorNew.ingest_transfers := None |}.

(** A second-variant world with the given replies and verdicts. *)
Definition new_world (price gas : reply) (ingest_price ingest_gas : option exn)
  : CollectorNew.cycle_world :=
  {| CollectorNew.config := new_config;
     CollectorNew.price := price;
     CollectorNew.now_price := t0;
     CollectorNew.ingest_price := ingest_price;
     CollectorNew.gas := gas;
     CollectorNew.now_gas := t0;
     CollectorNew.ingest_gas := ingest_gas;
     CollectorNew.contracts := fun _ => no_contract |}.

End Samples.

(* ================================================================== *)
(** * Measures on records and traces used by the further properties    *)
(* ================================================================== *)

Module Measures.
Import Py Http Effects.

Definition is_none (v : value) : bool :=
  match v with VNone => true | _ => false end.

(** The payload slots of a combined record, in task order. *)
Definition slots (rec : Collector.CombinedRecord) : list value :=
  [Collector.price_data rec; Collector.network_stats rec;
   Collector.recent_blocks rec; Collector.gas_data rec;
   Collector.defi_metrics rec].

Definition null_slots (rec : Collector.CombinedRecord) : nat :=
  List.length (filter is_none (slots rec)).

(** A first-variant world in which only the network statistics answer. *)
Definition stats_world (s : result (response * response * response))
  : Collector.cycle_world :=
  {| Collector.price := Samples.unreachable;
     Collector.now_price := Samples.t0;
     Collector.stats := s;
     Collector.now_stats := Samples.t0;
     Collector.block_number := Samples.unreachable;
     Collector.block_by_tag := fun _ => Samples.unreachable;
     Collector.gas := Samples.unreachable;
     Collector.now_gas := Samples.t0;
     Collector.defi := Samples.unreachable;
     Collector.now_defi := Samples.t0;
     Collector.now_cycle := Samples.t0 |}.

(** Supply refused with status 503, price and block number served. *)
Definition degraded_stats : result (response * response * response) :=
  Returned (Response 503 (Raised (ClientError "Attempt to decode JSON with unexpected mimetype")),
            Response 200 (Returned (VDict [("result",
                                            VDict [("ethusd", VStr "3000.5")])])),
            Response 200 (Returned (VDict [("result", VStr "0x10")]))).

(** The character that [f"{n:x}"] writes for the digit [d]. *)
Definition hexchar (d : Z) : ascii :=
  ascii_of_N (Z.to_N (if d <? 10 then 48 + d else 87 + d)).

Definition in_hex (d : Z) : Prop := 0 <= d < 16.

End Measures.

(* ================================================================== *)
(** * Measures on traces, further samples                              *)
(* ================================================================== *)

Module TraceMeasures.
Import Py Http Effects.

Section Payload.
Context {payload : Type}.

(** Every call of the sink in a trace carried a payload satisfying [P]. *)
Definition every_delivery (P : payload -> Prop) (t : list (event payload))
  : Prop :=
  forall p verdict, In (Deliver p verdict) t -> P p.

(** The calls of the sink in a trace, in order, with the sink's answers. *)
Definition delivered (t : list (event payload))
  : list (payload * option exn) :=
  flat_map (fun ev => match ev with
                      | Deliver p verdict => [(p, verdict)]
                      | _ => []
                      end) t.

Definition is_error_line (ev : event payload) : bool :=
  match ev with Log ERROR _ _ => true | _ => false end.

Definition has_error_line (t : list (event payload)) : bool :=
  existsb is_error_line t.

(** A computation logs at level ERROR only when it ends by raising. *)
Definition errors_only_when_raised {A} (c : io payload A) : Prop :=
  has_error_line (trace c) = true -> is_raised (outcome c) = true.
End Payload.

(** The tables the second variant ingests into. *)
Definition raw_tables : list string :=
  ["eth_price_raw"; "eth_gas_raw"; "erc20_transfers_raw"].

(** What every ingestion of a cycle in world [w] satisfies. *)
Definition well_targeted (w : CollectorNew.cycle_world)
           (p : CollectorNew.ingestion) : Prop :=
  CollectorNew.rows p <> []
  /\ In (CollectorNew.table_name p) raw_tables
  /\ CollectorNew.subscript2 (CollectorNew.config w) "kusto" "database"
     = Returned (CollectorNew.database p).

End TraceMeasures.

Module MoreSamples.
Import Py Http.

(** One Transfer log entry as the explorer's getLogs returns it. *)
Definition transfer_log : value :=
  VDict [("address", VStr "0xdac17f958d2ee523a2206206994597c13d831ec7");
         ("topics",
          VList [VStr "0xddf252ad1be2c89b69c2b068fc378daa952ba7f163c4a11628f55a4df523b3ef";
                 VStr "0x000000000000000000000000a9d1e08c7793af67e9d92fe308d5697fb81d3e43";
                 VStr "0x00000000000000000000000028c6c06298d514db089934071355e5743bf21d60"]);
         ("data", VStr "0x5f5e100");
         ("blockNumber", VStr "0x64");
         ("transactionHash", VStr "0xfeed");
         ("gasPrice", VStr "0x3b9aca00")].

(** A contract whose latest block is 0x64 and whose log query, made from
    block 0, answers with that one entry. *)
Definition token : CollectorNew.contract_world :=
  {| CollectorNew.latest_block :=
       Samples.ok (VDict [("result", VStr "0x64")]);
     CollectorNew.logs :=
       fun _ from_block =>
         if from_block =? 0
         then Samples.ok (VDict [("result", VList [transfer_log])])
         else Samples.unreachable;
     CollectorNew.now_log := fun _ => Samples.t0;
     CollectorNew.ingest_transfers := None |}.

Definition token_address : value :=
  VStr "0xdac17f958d2ee523a2206206994597c13d831ec7".

(** The record made of [transfer_log]. *)
Definition token_transfers : list value :=
  [VDict [("timestamp", VStr Samples.t0);
          ("transaction_hash", VStr "0xfeed");
          ("block_number", VInt 100);
          ("contract_address",
           VStr "0xdac17f958d2ee523a2206206994597c13d831ec7");
          ("from_address", VStr "0xa9d1e08c7793af67e9d92fe308d5697fb81d3e43");
          ("to_address", VStr "0x28c6c06298d514db089934071355e5743bf21d60");
          ("value", VInt 100000000);
          ("gas_price", VInt 1000000000);
          ("gas_used", VNone)]].

(** A second-variant world with nothing reachable but the gas oracle. *)
Definition gas_world : CollectorNew.cycle_world :=
  Samples.new_world Samples.unreachable (Samples.ok Samples.gas_body) None None.

End MoreSamples.

(* ================================================================== *)
(** * Checks of the runtime model against the interpreter              *)
(* ================================================================== *)

(** Values of [int(...)], [f"{n:x}"] and [str(n)] as CPython 3.11 prints
    them. *)
Example int_examples :
  Py.int (Py.VStr "10") = Py.Returned 10 /\
  Py.int (Py.VStr " -1_000 ") = Py.Returned (-1000) /\
  Py.int (Py.VInt 0) = Py.Returned 0 /\
  Py.int (Py.VFloat (-7 # 2)) = Py.Returned (-3) /\
  Py.is_raised (Py.int (Py.VStr "1__0")) = true /\
  Py.is_raised (Py.int (Py.VStr "0x10")) = true /\
  Py.is_raised (Py.int (Py.VStr EmptyString)) = true /\
  Py.int16 (Py.VStr "0x1f") = Py.Returned 31 /\
  Py.int16 (Py.VStr "0X_fF") = Py.Returned 255 /\
  Py.int16 (Py.VStr "-ff") = Py.Returned (-255) /\
  Py.is_raised (Py.int16 (Py.VStr "0x")) = true /\
  Py.is_raised (Py.int16 (Py.VInt 3)) = true /\
  Py.format_hex 255 = "ff" /\ Py.format_hex 0 = "0" /\
  Py.format_hex (-1) = "-1" /\ Py.format_hex 4096 = "1000" /\
  Py.str_int 500 = "500" /\ Py.str_int (-3) = "-3" /\ Py.str_int 0 = "0".
Proof. repeat split; vm_compute; reflexivity. Qed.

(** Values of [hash(...)] under [PYTHONHASHSEED=0], [1] and [2]. *)
Example hash_str_examples :
  Hash.hash_str (Hash.secret_of_seed 0) EmptyString = 0 /\
  Hash.hash_str (Hash.secret_of_seed 0) "a" = 4644417185603328019 /\
  Hash.hash_str (Hash.secret_of_seed 0) "abc" = -4594863902769663758 /\
  Hash.hash_str (Hash.secret_of_seed 0) "12345678" = 3785724242978802311 /\
  Hash.hash_str (Hash.secret_of_seed 0) "123456789" = 1133797698992234447 /\
  Hash.hash_str (Hash.secret_of_seed 0) "2024-01-01T00:00:00+00:00"
    = 1389384194561135542 /\
  Hash.hash_str (Hash.secret_of_seed 1) "a" = -3012895188637184397 /\
  Hash.hash_str (Hash.secret_of_seed 1) "2024-01-01T00:00:00+00:00"
    = -1989236991222471593 /\
  Hash.hash_str (Hash.secret_of_seed 2) "2024-01-01T00:00:00.000001+00:00"
    = 3772167045273087219.
Proof. repeat split; vm_compute; reflexivity. Qed.

(* ================================================================== *)
(** * Properties of the first variant's orchestrator and sources       *)
(* ================================================================== *)

Module CollectorFacts.
Import Py Http Effects Collector.

Lemma error_strings_length (results : list (result value)) :
  List.length (error_strings results)
  = List.length (filter is_raised results).
Proof.
  induction results as [|r results IH]; simpl.
  - reflexivity.
  - destruct r; simpl; now rewrite IH.
Qed.




(** ** The partition key *)

Lemma str_int_digit (z : Z) :
  0 <= z < 10 ->
  In (str_int z) ["0"; "1"; "2"; "3"; "4"; "5"; "6"; "7"; "8"; "9"].
Proof.
  intro Hz.
  assert (Hcases : z = 0 \/ z = 1 \/ z = 2 \/ z = 3 \/ z = 4 \/ z = 5
                   \/ z = 6 \/ z = 7 \/ z = 8 \/ z = 9) by lia.
  repeat (destruct Hcases as [-> | Hcases]; [vm_compute; tauto|]).
  subst z. vm_compute. tauto.
Qed.

(** C10: whatever the hash secret of the process and whatever the
    timestamp, the partition key is one of the ten one-character decimal
    digit strings: the residue modulo 10 is never negative. *)
Theorem partition_key_single_digit :
  forall sec ts,
    In (partition_key sec ts)
       ["0"; "1"; "2"; "3"; "4"; "5"; "6"; "7"; "8"; "9"].
Proof.
  intros sec ts. unfold partition_key.
  apply str_int_digit. apply Z.mod_pos_bound. lia.
Qed.

Lemma send_to_event_hub_trace sec data sink :
  keys_sent (trace (send_to_event_hub sec data sink))
  = [partition_key sec (timestamp data)].
Proof. destruct sink; reflexivity. Qed.

(** Inside one process (one hash secret) the key handed to the sink is
    computed from the record's timestamp and from nothing else: two
    deliveries of records with the same timestamp carry the same key,
    whatever the rest of the records and whatever the sink answers; the
    key is [str(hash(timestamp) % 10)]. *)
Theorem partition_key_fixed_within_process :
  forall sec d1 d2 sink1 sink2,
    timestamp d1 = timestamp d2 ->
    keys_sent (trace (send_to_event_hub sec d1 sink1))
    = [str_int (Hash.hash_str sec (timestamp d1) mod 10)]
    /\ keys_sent (trace (send_to_event_hub sec d2 sink2))
       = keys_sent (trace (send_to_event_hub sec d1 sink1)).
Proof.
  intros sec d1 d2 sink1 sink2 Hts.
  rewrite !send_to_event_hub_trace, Hts. split; reflexivity.
Qed.

(** C2: the partition key should be a pure function of the cycle
    timestamp, and in the code it is not.  [hash] is keyed by the secret
    of the process: for the timestamp 2024-01-01T00:00:00+00:00 a process
    started with PYTHONHASHSEED=1 computes the key 7 and one started with
    PYTHONHASHSEED=2 the key 8 (by default the secret is random), so no
    function of the timestamp alone gives the key. *)
Lemma partition_key_varies_with_hash_secret :
  partition_key (Hash.secret_of_seed 1) "2024-01-01T00:00:00+00:00" = "7"
  /\ partition_key (Hash.secret_of_seed 2) "2024-01-01T00:00:00+00:00" = "8"
  /\ ~ (exists key_of : string -> string,
          forall sec ts, partition_key sec ts = key_of ts).
Proof.
  assert (H1 : partition_key (Hash.secret_of_seed 1) "2024-01-01T00:00:00+00:00" = "7")
    by (vm_compute; reflexivity).
  assert (H2 : partition_key (Hash.secret_of_seed 2) "2024-01-01T00:00:00+00:00" = "8")
    by (vm_compute; reflexivity).
  repeat split; try assumption.
  intros [key_of Hkey].
  rewrite Hkey in H1. rewrite Hkey in H2. rewrite H1 in H2. discriminate.
Qed.

Lemma partition_key_fixed_within_process_witness :
  keys_sent (trace (send_to_event_hub (Hash.secret_of_seed 1)
                      Samples.all_failed None)) = ["7"]
  /\ keys_sent (trace (send_to_event_hub (Hash.secret_of_seed 1)
                         Samples.gas_only (Some (ServiceError "throttled"))))
     = keys_sent (trace (send_to_event_hub (Hash.secret_of_seed 1)
                           Samples.all_failed None)).
Proof.
  destruct (partition_key_fixed_within_process
              (Hash.secret_of_seed 1) Samples.all_failed Samples.gas_only
              None (Some (ServiceError "throttled")) eq_refl) as [Hkey Hsame].
  split.
  - rewrite Hkey. vm_compute. reflexivity.
  - exact Hsame.
Defined.

(** ** The price and gas sources, in both variants *)

Lemma first_missing_sound keys d k :
  first_missing keys d = Some k -> In k keys /\ lookup k d = None.
Proof.
  unfold first_missing. intro H. apply find_some in H as [Hin Hk].
  split; [assumption|]. destruct (lookup k d); [discriminate | reflexivity].
Qed.

Lemma first_missing_complete keys d :
  (exists k, In k keys /\ lookup k d = None) ->
  exists k, first_missing keys d = Some k.
Proof.
  intros [k [Hin Hk]]. unfold first_missing.
  destruct (find _ keys) as [k'|] eqn:Hfind; [eauto|].
  apply (find_none _ _ Hfind) in Hin. rewrite Hk in Hin. discriminate.
Qed.

Ltac first_missing_cases H eth :=
  unfold first_missing in H; simpl in H;
  repeat match goal with
         | |- context [lookup ?k eth] =>
             destruct (lookup k eth) eqn:?; simpl in H |- *;
             [| injection H as <-; reflexivity]
         end;
  try discriminate H.










(** ** The recent-blocks source *)

Section RecentBlocks.
Variable w : cycle_world.
Variable latest : Z.

Let entry (i : Z) : list value := appended (fetch_block w (latest - i)).

Lemma fetch_blocks_loop_all_return indices blocks :
  (forall i, In i indices ->
             exists l, fetch_block w (latest - i) = Returned l) ->
  fetch_blocks_loop w latest indices blocks
  = Returned (blocks ++ flat_map entry indices)%list.
Proof.
  revert blocks.
  induction indices as [|i rest IH]; intros blocks Hall; simpl.
  - now rewrite app_nil_r.
  - destruct (Hall i (or_introl eq_refl)) as [l Hl].
    unfold entry at 1. rewrite Hl. simpl.
    rewrite IH by (intros j Hj; apply Hall; now right).
    now rewrite <- app_assoc.
Qed.

Lemma fetch_blocks_loop_first_raise pre i post blocks e :
  (forall j, In j pre ->
             exists l, fetch_block w (latest - j) = Returned l) ->
  fetch_block w (latest - i) = Raised e ->
  fetch_blocks_loop w latest (pre ++ i :: post) blocks = Raised e.
Proof.
  revert blocks.
  induction pre as [|j pre IH]; intros blocks Hpre Hi; simpl.
  - now rewrite Hi.
  - destruct (Hpre j (or_introl eq_refl)) as [l Hl]. rewrite Hl. simpl.
    apply IH; [|assumption]. intros k Hk. apply Hpre. now right.
Qed.

(** One index contributes nothing, every other index one record. *)
Lemma flat_map_all_but_one (f : Z -> list value) (j : Z) (l : list Z) :
  NoDup l ->
  (forall i, In i l -> i <> j -> List.length (f i) = 1%nat) ->
  List.length (f j) = 0%nat ->
  List.length (flat_map f l)
  = if in_dec Z.eq_dec j l then (List.length l - 1)%nat else List.length l.
Proof.
  intros Hnd Hone Hzero.
  induction l as [|a l IH]; simpl; [reflexivity|].
  inversion Hnd as [|? ? Hnotin Hnd']; subst.
  rewrite length_app.
  rewrite IH by (auto; intros i Hi; apply Hone; now right).
  destruct (Z.eq_dec a j) as [->|Hne].
  - rewrite Hzero. destruct (in_dec Z.eq_dec j l); [contradiction|].
    simpl. lia.
  - rewrite (Hone a (or_introl eq_refl) Hne).
    destruct (in_dec Z.eq_dec j l) as [Hin|_]; simpl; [|reflexivity].
    destruct l; [destruct Hin | simpl; lia].
Qed.
End RecentBlocks.

Lemma range_NoDup count : NoDup (range count).
Proof.
  unfold range. apply Injective_map_NoDup.
  - intros a b. apply Nat2Z.inj.
  - apply seq_NoDup.
Qed.

Lemma range_length count : List.length (range count) = Z.to_nat count.
Proof. unfold range. now rewrite length_map, length_seq. Qed.

Lemma fetch_recent_blocks_after_latest w count latest :
  latest_block_is w latest ->
  fetch_recent_blocks w count
  = Py.bind (fetch_blocks_loop w latest (range count) [])
            (fun blocks => Returned (VList blocks)).
Proof.
  intros (r & data & Hr & Hs & Hj & Hlatest).
  unfold fetch_recent_blocks. rewrite Hr. simpl. rewrite Hs, Hj. simpl.
  rewrite Hlatest. reflexivity.
Qed.

(** C6, as the code has it.  A per-block sub-request is passed over, and
    nothing is raised, when its response has a status other than 200, or
    has status 200 and a body whose ["result"] is absent or empty.  When
    every sub-request is answered in one of these ways or with a
    well-formed block, the fetch returns exactly the records of the
    well-formed blocks in the order latest, latest-1, ..., latest-(c-1);
    with one sub-request passed over and the others well formed it has
    c - 1 entries (4 for the default 5).  A sub-request that raises (the
    request fails in transit, the body is undecodable) is not passed
    over: the whole fetch raises that exception. *)
Theorem recent_blocks_skips_unavailable :
  (forall w n r,
      block_by_tag w ("0x" ++ format_hex n) = Returned r ->
      status r <> 200 ->
      fetch_block w n = Returned [])
  /\ (forall w n r d,
        block_by_tag w ("0x" ++ format_hex n) = Returned r ->
        status r = 200 -> json r = Returned (VDict d) ->
        lookup "result" d = None ->
        fetch_block w n = Returned [])
  /\ (forall w n r d x,
        block_by_tag w ("0x" ++ format_hex n) = Returned r ->
        status r = 200 -> json r = Returned (VDict d) ->
        lookup "result" d = Some x -> truthy x = false ->
        fetch_block w n = Returned [])
  /\ (forall w n r d block rec,
        block_by_tag w ("0x" ++ format_hex n) = Returned r ->
        status r = 200 -> json r = Returned (VDict d) ->
        lookup "result" d = Some block -> truthy block = true ->
        block_record block = Returned rec ->
        fetch_block w n = Returned [rec])
  /\ (forall w count latest,
        latest_block_is w latest ->
        (forall i, In i (range count) ->
                   exists l, fetch_block w (latest - i) = Returned l) ->
        fetch_recent_blocks w count
        = Returned (VList (flat_map
                             (fun i => appended (fetch_block w (latest - i)))
                             (range count))))
  /\ (forall w count latest j,
        latest_block_is w latest ->
        In j (range count) ->
        fetch_block w (latest - j) = Returned [] ->
        (forall i, In i (range count) -> i <> j ->
                   exists rec, fetch_block w (latest - i) = Returned [rec]) ->
        exists blocks,
          fetch_recent_blocks w count = Returned (VList blocks)
          /\ List.length blocks = (Z.to_nat count - 1)%nat)
  /\ (forall w n e,
        block_by_tag w ("0x" ++ format_hex n) = Raised e ->
        fetch_block w n = Raised e)
  /\ (forall w n r e,
        block_by_tag w ("0x" ++ format_hex n) = Returned r ->
        status r = 200 -> json r = Raised e ->
        fetch_block w n = Raised e)
  /\ (forall w count latest pre i post e,
        latest_block_is w latest ->
        range count = (pre ++ i :: post)%list ->
        (forall j, In j pre ->
                   exists l, fetch_block w (latest - j) = Returned l) ->
        fetch_block w (latest - i) = Raised e ->
        fetch_recent_blocks w count = Raised e).
Proof.
  repeat apply conj.
  - intros w n r Hr Hs. unfold fetch_block. rewrite Hr. simpl.
    apply Z.eqb_neq in Hs. now rewrite Hs.
  - intros w n r d Hr Hs Hj Hres. unfold fetch_block. rewrite Hr. simpl.
    rewrite Hs, Hj. simpl. rewrite Hres. reflexivity.
  - intros w n r d x Hr Hs Hj Hres Hx. unfold fetch_block. rewrite Hr. simpl.
    rewrite Hs, Hj. simpl. rewrite Hres. simpl. now rewrite Hx.
  - intros w n r d block rec Hr Hs Hj Hres Hx Hrec. unfold fetch_block.
    rewrite Hr. simpl. rewrite Hs, Hj. simpl. rewrite Hres. simpl.
    rewrite Hx, Hrec. reflexivity.
  - intros w count latest Hlatest Hall.
    rewrite (fetch_recent_blocks_after_latest w count latest Hlatest).
    now rewrite (fetch_blocks_loop_all_return w latest (range count) [] Hall).
  - intros w count latest j Hlatest Hj Hskip Hothers.
    assert (Hall : forall i, In i (range count) ->
                             exists l, fetch_block w (latest - i) = Returned l).
    { intros i Hi. destruct (Z.eq_dec i j) as [->|Hne]; [eauto|].
      destruct (Hothers i Hi Hne) as [rec Hrec]. eauto. }
    rewrite (fetch_recent_blocks_after_latest w count latest Hlatest).
    rewrite (fetch_blocks_loop_all_return w latest (range count) [] Hall).
    simpl. eexists. split; [reflexivity|].
    rewrite (flat_map_all_but_one _ j (range count) (range_NoDup count)).
    + destruct (in_dec Z.eq_dec j (range count)); [|contradiction].
      now rewrite range_length.
    + intros i Hi Hne. destruct (Hothers i Hi Hne) as [rec Hrec].
      now rewrite Hrec.
    + now rewrite Hskip.
  - intros w n e Hr. unfold fetch_block. now rewrite Hr.
  - intros w n r e Hr Hs Hj. unfold fetch_block. rewrite Hr. simpl.
    rewrite Hs, Hj. reflexivity.
  - intros w count latest pre i post e Hlatest Hrange Hpre Hi.
    rewrite (fetch_recent_blocks_after_latest w count latest Hlatest).
    rewrite Hrange.
    now rewrite (fetch_blocks_loop_first_raise w latest pre i post [] e Hpre Hi).
Qed.

Lemma recent_blocks_skips_unavailable_witness :
  exists blocks,
    fetch_recent_blocks
      (Samples.explorer "0x61" (Samples.with_status 503 VNone)) 5
    = Returned (VList blocks)
    /\ List.length blocks = 4%nat.
Proof.
  destruct recent_blocks_skips_unavailable
    as (_ & _ & _ & _ & _ & Hone & _).
  apply (Hone (Samples.explorer "0x61" (Samples.with_status 503 VNone))
              5 100 3).
  - eexists. eexists. repeat split; reflexivity.
  - vm_compute. tauto.
  - vm_compute. reflexivity.
  - intros i Hi Hne. vm_compute in Hi.
    destruct Hi as [<- | [<- | [<- | [<- | [<- | []]]]]];
      try (eexists; vm_compute; reflexivity).
    now destruct Hne.
Defined.

(** C6, as stated, fails: with the latest block 0x64 and the request for
    block 0x61 (latest - 3) timing out, the fetch does not return four
    blocks, it raises the timeout. *)
Lemma recent_blocks_raises_on_transport_failure :
  fetch_recent_blocks
    (Samples.explorer "0x61" (Raised (ClientError "Connection timeout")))
    default_count
  = Raised (ClientError "Connection timeout").
Proof. vm_compute. reflexivity. Qed.

Example recent_blocks_one_skipped :
  fetch_recent_blocks
    (Samples.explorer "0x61" (Samples.with_status 503 VNone)) default_count
  = Returned (VList (map (fun n =>
       VDict [("number", VInt n);
              ("hash", VStr "0xabc");
              ("timestamp", VInt 1704067200);
              ("transaction_count", VInt 2);
              ("gas_used", VInt 21000);
              ("gas_limit", VInt 30000000);
              ("miner", VStr "0xdef");
              ("size", VInt 1024)]) [100; 99; 98; 96])).
Proof. vm_compute. reflexivity. Qed.

End CollectorFacts.

(* ================================================================== *)
(** * Traces: what binding and handling preserve                       *)
(* ================================================================== *)

Module EffectsFacts.
Import Py Effects.

Section Traces.
Context {payload : Type}.
Implicit Types t : list (event payload).

Lemma deliveries_app t1 t2 :
  deliveries (t1 ++ t2) = (deliveries t1 + deliveries t2)%nat.
Proof. unfold deliveries. now rewrite filter_app, length_app. Qed.

Lemma sleeps_app t1 t2 : sleeps (t1 ++ t2) = (sleeps t1 ++ sleeps t2)%list.
Proof. unfold sleeps. apply flat_map_app. Qed.

Lemma has_refusal_app t1 t2 :
  has_refusal (t1 ++ t2) = has_refusal t1 || has_refusal t2.
Proof. unfold has_refusal. apply existsb_app. Qed.

Lemma no_delivery_after_refusal_app_quiet t1 t2 :
  no_delivery_after_refusal t1 -> deliveries t2 = 0%nat ->
  no_delivery_after_refusal (t1 ++ t2).
Proof.
  intros H1 H2. induction t1 as [|ev t1 IH]; simpl.
  - destruct t2 as [|ev t2]; simpl; [exact I|].
    clear H1. revert ev H2. induction t2 as [|ev' t2 IH2]; intros ev H2.
    + split; [reflexivity | exact I].
    + unfold deliveries in H2. simpl in H2.
      destruct (is_deliver ev) eqn:Hev; [discriminate|].
      split.
      * intro Href. destruct ev; simpl in *; discriminate.
      * apply IH2. exact H2.
  - destruct H1 as [Hhead Htail]. split.
    + intro Href. rewrite deliveries_app, (Hhead Href), H2. reflexivity.
    + apply IH. exact Htail.
Qed.

Lemma no_delivery_after_refusal_app_clean t1 t2 :
  has_refusal t1 = false -> no_delivery_after_refusal t2 ->
  no_delivery_after_refusal (t1 ++ t2).
Proof.
  intros H1 H2. induction t1 as [|ev t1 IH]; simpl; [assumption|].
  unfold has_refusal in H1. simpl in H1.
  apply orb_false_iff in H1 as [Hev Hrest]. split.
  - intro Href. rewrite Hev in Href. discriminate.
  - apply IH. exact Hrest.
Qed.

(** ** Stopping at a refusal *)

Lemma stops_ret {A} (a : A) : stops_at_refusal (ret (payload:=payload) a).
Proof. split; [exact I | discriminate]. Qed.

Lemma stops_lift {A} (r : result A) :
  stops_at_refusal (lift (payload:=payload) r).
Proof. split; [exact I | discriminate]. Qed.

Lemma stops_emit (ev : event payload) :
  is_deliver ev = false -> stops_at_refusal (emit ev).
Proof.
  intro Hev. split; simpl.
  - split; [|exact I]. reflexivity.
  - unfold has_refusal. simpl. destruct ev; simpl in *; discriminate.
Qed.

Lemma stops_deliver (p : payload) (verdict : option exn) :
  stops_at_refusal (deliver p verdict).
Proof.
  split; simpl.
  - split; [|exact I]. reflexivity.
  - destruct verdict; [reflexivity | discriminate].
Qed.

Lemma stops_bind {A B} (c : io payload A) (k : A -> io payload B) :
  stops_at_refusal c -> (forall a, stops_at_refusal (k a)) ->
  stops_at_refusal (iobind c k).
Proof.
  unfold stops_at_refusal, iobind, trace, outcome.
  intros [Hc1 Hc2] Hk. destruct c as [t [a|e]]; cbn [fst snd] in *.
  - specialize (Hk a). destruct (k a) as [t' r]. destruct Hk as [Hk1 Hk2].
    cbn [fst snd] in *.
    assert (Hclean : has_refusal t = false).
    { destruct (has_refusal t); [discriminate (Hc2 eq_refl) | reflexivity]. }
    split.
    + now apply no_delivery_after_refusal_app_clean.
    + rewrite has_refusal_app, Hclean. exact Hk2.
  - split; assumption.
Qed.

Lemma stops_try_reraise {A} (c : io payload A) (h : exn -> io payload A) :
  stops_at_refusal c -> logs_and_raises h ->
  stops_at_refusal (try_except c h).
Proof.
  unfold stops_at_refusal, try_except, trace, outcome.
  intros [Hc1 Hc2] Hh. destruct c as [t [a|e]]; cbn [fst snd] in *.
  - split; assumption.
  - destruct (Hh e) as (Hd & _ & Hr). destruct (h e) as [t' r].
    unfold trace, outcome in *. cbn [fst snd] in *.
    split.
    + now apply no_delivery_after_refusal_app_quiet.
    + intros _. exact Hr.
Qed.

(** A handler that swallows the exception without delivering keeps the
    trace in order. *)
Lemma no_delivery_after_refusal_try {A} (c : io payload A)
      (h : exn -> io payload A) :
  stops_at_refusal c -> (forall e, deliveries (trace (h e)) = 0%nat) ->
  no_delivery_after_refusal (trace (try_except c h)).
Proof.
  unfold stops_at_refusal, try_except, trace, outcome.
  intros [Hc1 _] Hh. destruct c as [t [a|e]]; cbn [fst snd] in *.
  - assumption.
  - specialize (Hh e). destruct (h e) as [t' r]. cbn [fst snd] in *.
    now apply no_delivery_after_refusal_app_quiet.
Qed.

(** ** Not sleeping *)

Lemma sleepless_ret {A} (a : A) : sleepless (ret (payload:=payload) a).
Proof. reflexivity. Qed.

Lemma sleepless_lift {A} (r : result A) :
  sleepless (lift (payload:=payload) r).
Proof. reflexivity. Qed.

Lemma sleepless_emit (ev : event payload) :
  is_sleep ev = false -> sleepless (emit ev).
Proof. destruct ev; simpl; intro H; [reflexivity .. | discriminate]. Qed.

Lemma sleepless_deliver (p : payload) (verdict : option exn) :
  sleepless (deliver p verdict).
Proof. reflexivity. Qed.

Lemma sleepless_bind {A B} (c : io payload A) (k : A -> io payload B) :
  sleepless c -> (forall a, sleepless (k a)) -> sleepless (iobind c k).
Proof.
  unfold sleepless, iobind, trace.
  intros Hc Hk. destruct c as [t [a|e]]; cbn [fst snd] in *.
  - specialize (Hk a). destruct (k a) as [t' r]. cbn [fst snd] in *.
    now rewrite sleeps_app, Hc, Hk.
  - assumption.
Qed.

Lemma sleepless_try {A} (c : io payload A) (h : exn -> io payload A) :
  sleepless c -> logs_and_raises h -> sleepless (try_except c h).
Proof.
  unfold sleepless, try_except, trace.
  intros Hc Hh. destruct c as [t [a|e]]; cbn [fst snd] in *.
  - assumption.
  - destruct (Hh e) as (_ & Hs & _). destruct (h e) as [t' r].
    unfold trace in *. cbn [fst snd] in *.
    now rewrite sleeps_app, Hc, Hs.
Qed.
End Traces.

End EffectsFacts.

(* ================================================================== *)
(** * Properties of the collection loops                               *)
(* ================================================================== *)

Module LoopFacts.
Import Py Http Effects EffectsFacts.
Local Open Scope io_scope.

Ltac handler_logs_and_raises :=
  let e := fresh "e" in
  intro e; try destruct e; repeat split; reflexivity.

(** Both tactics follow the syntax of a computation and leave the calls
    of other functions as goals. *)
Ltac stops :=
  cbv zeta;
  repeat lazymatch goal with
    | |- stops_at_refusal (ret _) => apply stops_ret
    | |- stops_at_refusal (lift _) => apply stops_lift
    | |- stops_at_refusal (deliver _ _) => apply stops_deliver
    | |- stops_at_refusal (emit _) => apply stops_emit; reflexivity
    | |- stops_at_refusal (iobind _ _) =>
        apply stops_bind; [|intro; cbv zeta]
    | |- stops_at_refusal (try_except _ _) =>
        apply stops_try_reraise; [|handler_logs_and_raises]
    end.

Ltac no_sleep :=
  cbv zeta;
  repeat lazymatch goal with
    | |- sleepless (ret _) => apply sleepless_ret
    | |- sleepless (lift _) => apply sleepless_lift
    | |- sleepless (deliver _ _) => apply sleepless_deliver
    | |- sleepless (emit _) => apply sleepless_emit; reflexivity
    | |- sleepless (iobind _ _) =>
        apply sleepless_bind; [|intro; cbv zeta]
    | |- sleepless (try_except _ _) =>
        apply sleepless_try; [|handler_logs_and_raises]
    end.

(** ** First variant *)

Section First.
Import Collector.
Variable interval_seconds : Z.
Variable sec : Hash.secret.

Lemma fetch_ethereum_data_returns (w : cycle_world) :
  exists data, fetch_ethereum_data w = Returned data.
Proof. eexists. reflexivity. Qed.

Lemma send_to_event_hub_stops data verdict :
  stops_at_refusal (send_to_event_hub sec data verdict).
Proof. unfold send_to_event_hub. stops. Qed.

Lemma tick_body_stops w : stops_at_refusal (tick_body interval_seconds sec w).
Proof.
  unfold tick_body. stops. apply send_to_event_hub_stops.
Qed.

Lemma tick_body_accepted w :
  sink w = None ->
  exists data,
    fetch_ethereum_data (cycle w) = Returned data
    /\ tick_body interval_seconds sec w
       = ([Deliver (SendBatch
                      [{| body := data;
                          properties := [("source", "ethereum_collector");
                                         ("version", "1.0");
                                         ("data_type", "ethereum_metrics")] |}]
                      (partition_key sec (timestamp data))) None;
           Log INFO "Data sent to Event Hub successfully at {}"
               [AStr (timestamp data)];
           Log INFO "Collection cycle completed in {:.2f}s"
               [ANum (end_time w - start_time w)%Q];
           Sleep (max 0 (inject_Z interval_seconds
                         - (end_time w - start_time w))%Q)],
          Returned tt).
Proof.
  intro Hsink. destruct (fetch_ethereum_data_returns (cycle w)) as [data Hd].
  exists data. split; [assumption|].
  unfold tick_body. rewrite Hd, Hsink. reflexivity.
Qed.

Lemma tick_body_refused w e :
  sink w = Some e ->
  exists data,
    fetch_ethereum_data (cycle w) = Returned data
    /\ tick_body interval_seconds sec w
       = ([Deliver (SendBatch
                      [{| body := data;
                          properties := [("source", "ethereum_collector");
                                         ("version", "1.0");
                                         ("data_type", "ethereum_metrics")] |}]
                      (partition_key sec (timestamp data))) (Some e);
           Log ERROR "Failed to send data to Event Hub: {}" [AStr (str_exn e)]],
          Raised e).
Proof.
  intro Hsink. destruct (fetch_ethereum_data_returns (cycle w)) as [data Hd].
  exists data. split; [assumption|].
  unfold tick_body. rewrite Hd, Hsink. reflexivity.
Qed.

Lemma tick_returns w : outcome (tick interval_seconds sec w) = Returned tt.
Proof.
  unfold tick. destruct (sink w) as [e|] eqn:Hsink.
  - destruct (tick_body_refused w e Hsink) as (data & _ & ->). reflexivity.
  - destruct (tick_body_accepted w Hsink) as (data & _ & ->). reflexivity.
Qed.

Lemma tick_sleeps_once w :
  List.length (sleeps (trace (tick interval_seconds sec w))) = 1%nat.
Proof.
  unfold tick. destruct (sink w) as [e|] eqn:Hsink.
  - destruct (tick_body_refused w e Hsink) as (data & _ & ->). reflexivity.
  - destruct (tick_body_accepted w Hsink) as (data & _ & ->). reflexivity.
Qed.

Lemma iterate_runs ws :
  outcome (iterate interval_seconds sec ws) = Returned tt
  /\ List.length (sleeps (trace (iterate interval_seconds sec ws)))
     = List.length ws.
Proof.
  induction ws as [|w ws [IHo IHs]]; simpl.
  - split; reflexivity.
  - pose proof (tick_returns w) as Ho. pose proof (tick_sleeps_once w) as Hs.
    unfold iobind, outcome, trace in *.
    destruct (tick interval_seconds sec w) as [t r]. cbn [fst snd] in *.
    subst r. destruct (iterate interval_seconds sec ws) as [t' r'].
    cbn [fst snd] in *. split; [assumption|].
    now rewrite sleeps_app, length_app, Hs, IHs.
Qed.
End First.

(** ** Second variant *)

Section Second.
Import CollectorNew.
Variable interval_seconds : Z.

Lemma ingest_to_kusto_stops w data table verdict :
  stops_at_refusal (ingest_to_kusto w data table verdict).
Proof. unfold ingest_to_kusto. stops. Qed.

Lemma ingest_to_kusto_sleepless w data table verdict :
  sleepless (ingest_to_kusto w data table verdict).
Proof. unfold ingest_to_kusto. no_sleep. Qed.

Lemma collect_erc20_transfers_stops w c address :
  stops_at_refusal (collect_erc20_transfers w c address).
Proof. unfold collect_erc20_transfers, transfers_request. stops. Qed.

Lemma collect_erc20_transfers_sleepless w c address :
  sleepless (collect_erc20_transfers w c address).
Proof. unfold collect_erc20_transfers, transfers_request. no_sleep. Qed.

Lemma contracts_loop_stops w n cs : stops_at_refusal (contracts_loop w n cs).
Proof.
  revert n. induction cs as [|contract rest IH]; intro n;
    cbn [contracts_loop].
  - apply stops_ret.
  - apply stops_bind; [apply stops_lift | intro address].
    apply stops_bind; [apply collect_erc20_transfers_stops | intro transfers].
    apply stops_bind; [|intros _; apply IH].
    destruct transfers; [apply stops_ret | apply ingest_to_kusto_stops].
Qed.

Lemma contracts_loop_sleepless w n cs : sleepless (contracts_loop w n cs).
Proof.
  revert n. induction cs as [|contract rest IH]; intro n;
    cbn [contracts_loop].
  - apply sleepless_ret.
  - apply sleepless_bind; [apply sleepless_lift | intro address].
    apply sleepless_bind;
      [apply collect_erc20_transfers_sleepless | intro transfers].
    apply sleepless_bind; [|intros _; apply IH].
    destruct transfers; [apply sleepless_ret | apply ingest_to_kusto_sleepless].
Qed.

Lemma run_collection_cycle_stops w : stops_at_refusal (run_collection_cycle w).
Proof.
  unfold run_collection_cycle, collect_eth_price_data, price_request,
    collect_gas_data, gas_request.
  stops; first [ apply ingest_to_kusto_stops | apply contracts_loop_stops ].
Qed.

Lemma run_collection_cycle_sleepless w : sleepless (run_collection_cycle w).
Proof.
  unfold run_collection_cycle, collect_eth_price_data, price_request,
    collect_gas_data, gas_request.
  no_sleep;
    first [ apply ingest_to_kusto_sleepless | apply contracts_loop_sleepless ].
Qed.

Lemma tick_body_stops_new w : stops_at_refusal (tick_body interval_seconds w).
Proof. unfold tick_body. stops. apply run_collection_cycle_stops. Qed.

(** What a tick does, by how the cycle ended. *)
Lemma tick_unfolded w :
  tick interval_seconds w
  = match outcome (run_collection_cycle w) with
    | Returned _ =>
        ((trace (run_collection_cycle w)
            ++ [Sleep (inject_Z interval_seconds)])%list,
         Returned tt)
    | Raised e =>
        ((trace (run_collection_cycle w)
            ++ [Log ERROR "Error in continuous collection: {}"
                    [AStr (str_exn e)];
                Sleep 60])%list,
         Returned tt)
    end.
Proof.
  unfold tick, tick_body, outcome, trace.
  destruct (run_collection_cycle w) as [t [[]|e]]; reflexivity.
Qed.

Lemma tick_returns_new w : outcome (tick interval_seconds w) = Returned tt.
Proof.
  rewrite tick_unfolded.
  destruct (outcome (run_collection_cycle w)); reflexivity.
Qed.

Lemma tick_sleeps_new w :
  sleeps (trace (tick interval_seconds w))
  = match outcome (run_collection_cycle w) with
    | Returned _ => [inject_Z interval_seconds]
    | Raised _ => [60%Q]
    end.
Proof.
  rewrite tick_unfolded. pose proof (run_collection_cycle_sleepless w) as Hs.
  unfold sleepless in Hs.
  destruct (outcome (run_collection_cycle w)); unfold trace at 1;
    cbn [fst]; rewrite sleeps_app, Hs; reflexivity.
Qed.

Lemma iterate_runs_new ws :
  outcome (iterate interval_seconds ws) = Returned tt
  /\ List.length (sleeps (trace (iterate interval_seconds ws)))
     = List.length ws.
Proof.
  induction ws as [|w ws [IHo IHs]]; simpl.
  - split; reflexivity.
  - pose proof (tick_returns_new w) as Ho.
    assert (Hs : List.length (sleeps (trace (tick interval_seconds w))) = 1%nat).
    { rewrite tick_sleeps_new.
      destruct (outcome (run_collection_cycle w)); reflexivity. }
    unfold iobind, outcome, trace in *.
    destruct (tick interval_seconds w) as [t r]. cbn [fst snd] in *.
    subst r. destruct (iterate interval_seconds ws) as [t' r'].
    cbn [fst snd] in *. split; [assumption|].
    now rewrite sleeps_app, length_app, Hs, IHs.
Qed.
End Second.

(** ** The claims on the loops *)

Lemma max_zero_spec (x : Q) :
  (Collector.max 0 x == Qmax 0 x)%Q
  /\ ((x <= 0)%Q -> Collector.max 0 x = 0%Q)
  /\ ((0 < x)%Q -> Collector.max 0 x = x).
Proof.
  unfold Collector.max. destruct (Qle_bool x 0) eqn:Hle.
  - apply Qle_bool_iff in Hle. repeat split.
    + symmetry. now apply Q.max_l.
    + intro Hpos. lra.
  - assert (Hpos : (0 < x)%Q).
    { apply Qnot_le_lt. intro H. apply Qle_bool_iff in H. congruence. }
    repeat split.
    + symmetry. apply Q.max_r. lra.
    + intro H. lra.
Qed.





(** A tick of the first variant whose delivery the sink refuses. *)
Example refused_tick_first_variant :
  Collector.tick 10 (Hash.secret_of_seed 1)
    (Samples.offline_tick (Some (ServiceError "throttled")) 1)
  = ([Deliver
        (Collector.SendBatch
           [{| Collector.body :=
                 {| Collector.timestamp := Samples.t0;
                    Collector.data_version := "1.0";
                    Collector.source := "ethereum_collector";
                    Collector.price_data := VNone;
                    Collector.network_stats := VNone;
                    Collector.recent_blocks := VNone;
                    Collector.gas_data := VNone;
                    Collector.defi_metrics :=
                      Collector.defi_failure "Cannot connect to host";
                    Collector.errors :=
                      ["Cannot connect to host"; "Cannot connect to host";
                       "Cannot connect to host"; "Cannot connect to host"] |};
               Collector.properties :=
                 [("source", "ethereum_collector");
                  ("version", "1.0");
                  ("data_type", "ethereum_metrics")] |}]
           "7")
        (Some (ServiceError "throttled"));
      Log ERROR "Failed to send data to Event Hub: {}" [AStr "throttled"];
      Log ERROR "Error in collection loop: {}" [AStr "throttled"];
      Sleep 5],
     Returned tt).
Proof. vm_compute. reflexivity. Qed.

(** A tick of the second variant whose first ingestion the store refuses:
    the gas data is neither fetched nor ingested. *)
Example refused_tick_second_variant :
  CollectorNew.tick 300
    (Samples.new_world (Samples.ok Samples.price_body) Samples.unreachable
       (Some (ServiceError "throttled")) None)
  = ([Log INFO "Collected ETH price: ${}" [AVal (VInt 3000)];
      Deliver
        (CollectorNew.Ingestion (VStr "ethereum") "eth_price_raw"
           [VDict [("timestamp", VStr Samples.t0);
                   ("price_usd", VInt 3000);
                   ("market_cap", VFloat 360000000000);
                   ("volume_24h", VFloat 12000000000);
                   ("change_24h", VFloat (25 # 10))]])
        (Some (ServiceError "throttled"));
      Log ERROR "Kusto ingestion error: {}" [AStr "throttled"];
      Log ERROR "Collection cycle failed: {}" [AStr "throttled"];
      Log ERROR "Error in continuous collection: {}" [AStr "throttled"];
      Sleep 60],
     Returned tt).
Proof. vm_compute. reflexivity. Qed.

End LoopFacts.

(* ================================================================== *)
(** * Further properties of the first variant's sources              *)
(* ================================================================== *)

Module SourceFacts.
Import Py Http Effects Collector Measures CollectorFacts.

(** Case analysis on a computation that returned: every bind on the way
    returned too, and every test is decided. *)
Ltac returned H :=
  repeat match type of H with
    | Py.bind ?c _ = Returned _ =>
        let E := fresh "E" in
        destruct c eqn:E; cbn [Py.bind] in H; [|discriminate H]
    | (if ?b then _ else _) = Returned _ =>
        let E := fresh "E" in destruct b eqn:E
    | (let '(_, _) := ?p in _) = Returned _ => destruct p
    | Raised _ = Returned _ => discriminate H
    end.

Lemma fetch_current_price_dict w v :
  fetch_current_price w = Returned v -> is_none v = false.
Proof.
  unfold fetch_current_price. intro H. returned H.
  injection H as <-. reflexivity.
Qed.

Lemma fetch_network_stats_dict w v :
  fetch_network_stats w = Returned v -> is_none v = false.
Proof.
  unfold fetch_network_stats. intro H. returned H.
  all: injection H as <-; reflexivity.
Qed.

Lemma fetch_recent_blocks_list w count v :
  fetch_recent_blocks w count = Returned v -> exists blocks, v = VList blocks.
Proof.
  unfold fetch_recent_blocks. intro H. returned H.
  injection H as <-. eauto.
Qed.

Lemma fetch_gas_tracker_dict w v :
  fetch_gas_tracker w = Returned v -> is_none v = false.
Proof.
  unfold fetch_gas_tracker. intro H. returned H.
  injection H as <-. reflexivity.
Qed.

Lemma fetch_defi_metrics_dict w :
  exists d, fetch_defi_metrics w = Returned (VDict d).
Proof.
  unfold fetch_defi_metrics.
  destruct (defi_request w) as [v|e] eqn:H; [|unfold defi_failure; eauto].
  unfold defi_request in H. returned H.
  all: injection H as <-; unfold defi_failure; eauto.
Qed.

Lemma slot_null_iff_raised (r : result value) :
  (forall v, r = Returned v -> is_none v = false) ->
  is_none (slot r) = is_raised r.
Proof. destruct r as [v|e]; simpl; intro H; [now apply H | reflexivity]. Qed.

(** X1: in a combined record the number of error strings equals the number
    of null payload slots: a slot is null exactly when its source raised.
    The defi_metrics slot is never null, because that source turns its own
    failures into a value, so a record carries at most four errors. *)
Theorem errors_match_null_slots :
  forall w rec,
    fetch_ethereum_data w = Returned rec ->
    List.length (errors rec) = null_slots rec
    /\ is_none (defi_metrics rec) = false
    /\ (List.length (errors rec) <= 4)%nat.
Proof.
  intros w rec H. unfold fetch_ethereum_data, combine, gather in H.
  cbn [item nth_error Py.bind] in H. injection H as <-.
  unfold null_slots, slots.
  cbn [errors price_data network_stats recent_blocks gas_data defi_metrics].
  pose proof (slot_null_iff_raised _ (fetch_current_price_dict w)) as H0.
  pose proof (slot_null_iff_raised _ (fetch_network_stats_dict w)) as H1.
  assert (H2 : is_none (slot (fetch_recent_blocks w default_count))
               = is_raised (fetch_recent_blocks w default_count)).
  { apply slot_null_iff_raised. intros v Hv.
    destruct (fetch_recent_blocks_list _ _ _ Hv) as [blocks ->]. reflexivity. }
  pose proof (slot_null_iff_raised _ (fetch_gas_tracker_dict w)) as H3.
  destruct (fetch_defi_metrics_dict w) as [d Hd].
  rewrite Hd in *. cbn [slot is_none].
  cbn [filter]. rewrite H0, H1, H2, H3. cbn [is_none].
  unfold error_strings. cbn [flat_map].
  destruct (fetch_current_price w), (fetch_network_stats w),
    (fetch_recent_blocks w default_count), (fetch_gas_tracker w);
    cbn; repeat split; lia.
Qed.

Lemma errors_match_null_slots_witness :
  exists rec,
    fetch_ethereum_data Samples.offline = Returned rec
    /\ List.length (errors rec) = 4%nat
    /\ null_slots rec = 4%nat.
Proof.
  eexists. split; [reflexivity|].
  destruct (errors_match_null_slots Samples.offline _ eq_refl) as (H & _ & _).
  split; [|rewrite <- H]; vm_compute; reflexivity.
Defined.

(** ** Network statistics *)

(** X2: in the network-stats source a sub-call that comes back with a
    status other than 200 only puts its own field to the default
    (total_supply ["0"], eth_price [{}], latest_block 0) and its body is
    never decoded.  The source returns whenever each response either has
    such a status or carries an object, and the block number, when
    present and non-empty, reads in base 16. *)
Theorem network_stats_degrades_per_field :
  forall w r0 r1 r2,
    stats w = Returned (r0, r1, r2) ->
    (status r0 <> 200 \/ exists d, json r0 = Returned (VDict d)) ->
    (status r1 <> 200 \/ exists d, json r1 = Returned (VDict d)) ->
    (status r2 <> 200
     \/ exists d, json r2 = Returned (VDict d)
                  /\ (forall x, lookup "result" d = Some x -> truthy x = true ->
                                 exists n, int16 x = Returned n)) ->
    exists total_supply eth_price latest_block,
      fetch_network_stats w
      = Returned (VDict [("total_supply", total_supply);
                         ("eth_price", eth_price);
                         ("latest_block", VInt latest_block);
                         ("timestamp", VStr (now_stats w))])
      /\ (status r0 <> 200 -> total_supply = VStr "0")
      /\ (status r1 <> 200 -> eth_price = VDict [])
      /\ (status r2 <> 200 -> latest_block = 0).
Proof.
  intros w r0 r1 r2 Hs H0 H1 H2. unfold fetch_network_stats.
  rewrite Hs. cbn [Py.bind].
  assert (E0 : exists d, stats_result r0 = Returned (VDict d)
                         /\ (status r0 <> 200 -> lookup "result" d = None)).
  { unfold stats_result. destruct (Z.eqb_spec (status r0) 200) as [Heq|Hne].
    - destruct H0 as [H0|[d H0]]; [contradiction|]. exists d. split; tauto.
    - eexists. split; [reflexivity|]. reflexivity. }
  assert (E1 : exists d, stats_result r1 = Returned (VDict d)
                         /\ (status r1 <> 200 -> lookup "result" d = None)).
  { unfold stats_result. destruct (Z.eqb_spec (status r1) 200) as [Heq|Hne].
    - destruct H1 as [H1|[d H1]]; [contradiction|]. exists d. split; tauto.
    - eexists. split; [reflexivity|]. reflexivity. }
  assert (E2 : exists d, stats_result r2 = Returned (VDict d)
                         /\ (status r2 <> 200 -> lookup "result" d = None)
                         /\ (forall x, lookup "result" d = Some x ->
                                        truthy x = true ->
                                        exists n, int16 x = Returned n)).
  { unfold stats_result. destruct (Z.eqb_spec (status r2) 200) as [Heq|Hne].
    - destruct H2 as [H2|[d [H2 Hhex]]]; [contradiction|]. exists d.
      repeat split; [assumption | tauto | assumption].
    - eexists. split; [reflexivity|]. split; [reflexivity|].
      intros x Hx. discriminate Hx. }
  destruct E0 as (d0 & -> & D0), E1 as (d1 & -> & D1),
      E2 as (d2 & -> & D2 & Hhex).
  cbn [Py.bind get].
  destruct (lookup "result" d0) as [v0|] eqn:L0;
    destruct (lookup "result" d1) as [v1|] eqn:L1;
    destruct (lookup "result" d2) as [x|] eqn:L2;
    cbn [Py.bind truthy];
    try (destruct (truthy x) eqn:Ht;
         [destruct (Hhex x eq_refl Ht) as [n Hn]; rewrite Hn|]);
    cbn [Py.bind];
    do 3 eexists; (split; [reflexivity|]);
    repeat split; intro Hne;
    first [ reflexivity
          | discriminate (D0 Hne)
          | discriminate (D1 Hne)
          | discriminate (D2 Hne) ].
Qed.

Lemma network_stats_degrades_per_field_witness :
  exists total_supply eth_price latest_block,
    fetch_network_stats (stats_world degraded_stats)
    = Returned (VDict [("total_supply", total_supply);
                       ("eth_price", eth_price);
                       ("latest_block", VInt latest_block);
                       ("timestamp", VStr Samples.t0)])
    /\ total_supply = VStr "0".
Proof.
  destruct (network_stats_degrades_per_field
              (stats_world degraded_stats)
              (Response 503 (Raised (ClientError "Attempt to decode JSON with unexpected mimetype")))
              (Response 200 (Returned (VDict [("result",
                                       VDict [("ethusd", VStr "3000.5")])])))
              (Response 200 (Returned (VDict [("result", VStr "0x10")])))
              eq_refl)
    as (total_supply & eth_price & latest_block & Heq & Hsupply & _).
  - left. simpl. lia.
  - right. eexists. reflexivity.
  - right. eexists. split; [reflexivity|].
    intros x Hx _. injection Hx as <-. eexists. vm_compute. reflexivity.
  - exists total_supply, eth_price, latest_block. split; [exact Heq|].
    apply Hsupply. simpl. lia.
Defined.

Example network_stats_degraded :
  fetch_network_stats (stats_world degraded_stats)
  = Returned (VDict [("total_supply", VStr "0");
                     ("eth_price", VDict [("ethusd", VStr "3000.5")]);
                     ("latest_block", VInt 16);
                     ("timestamp", VStr Samples.t0)]).
Proof. vm_compute. reflexivity. Qed.

(** ** Recent blocks *)

Lemma fetch_block_at_most_one w n l :
  fetch_block w n = Returned l -> (List.length l <= 1)%nat.
Proof.
  unfold fetch_block. intro H. returned H;
    injection H as <-; simpl; lia.
Qed.

Lemma fetch_blocks_loop_length w latest indices blocks l :
  fetch_blocks_loop w latest indices blocks = Returned l ->
  (List.length l <= List.length blocks + List.length indices)%nat.
Proof.
  revert blocks. induction indices as [|i rest IH]; intros blocks H; simpl in H.
  - injection H as <-. simpl. lia.
  - destruct (fetch_block w (latest - i)) as [new|e] eqn:Hnew;
      cbn [Py.bind] in H; [|discriminate H].
    apply IH in H. apply fetch_block_at_most_one in Hnew.
    rewrite length_app in H. simpl. lia.
Qed.

(** X3: whatever the block explorer answers, a recent-blocks fetch that
    returns gives a list of at most [count] block records, and none when
    [count] is zero or negative. *)
Theorem recent_blocks_at_most_count :
  forall w count v,
    fetch_recent_blocks w count = Returned v ->
    exists blocks,
      v = VList blocks /\ (List.length blocks <= Z.to_nat count)%nat.
Proof.
  intros w count v H. unfold fetch_recent_blocks in H. returned H.
  injection H as <-. eexists. split; [reflexivity|].
  match goal with
  | E : fetch_blocks_loop _ _ _ _ = Returned _ |- _ =>
      apply fetch_blocks_loop_length in E; rewrite range_length in E;
      simpl in E; exact E
  end.
Qed.

Lemma recent_blocks_at_most_count_witness :
  exists blocks,
    fetch_recent_blocks
      (Samples.explorer "0x61" (Samples.with_status 503 VNone)) 5
    = Returned (VList blocks)
    /\ (List.length blocks <= 5)%nat.
Proof.
  destruct (recent_blocks_at_most_count
              (Samples.explorer "0x61" (Samples.with_status 503 VNone)) 5
              _ eq_refl) as (blocks & Hv & Hlen).
  exists blocks. split; [|exact Hlen].
  rewrite <- Hv. reflexivity.
Defined.

Lemma in_range i count : In i (range count) <-> 0 <= i < count.
Proof.
  unfold range. rewrite in_map_iff. split.
  - intros [k [<- Hk]]. apply in_seq in Hk. lia.
  - intro Hi. exists (Z.to_nat i). split; [lia|]. apply in_seq. lia.
Qed.

Lemma fetch_blocks_loop_ext w1 w2 latest indices blocks :
  (forall i, In i indices ->
             block_by_tag w2 ("0x" ++ format_hex (latest - i))
             = block_by_tag w1 ("0x" ++ format_hex (latest - i))) ->
  fetch_blocks_loop w2 latest indices blocks
  = fetch_blocks_loop w1 latest indices blocks.
Proof.
  revert blocks. induction indices as [|i rest IH]; intros blocks H; simpl.
  - reflexivity.
  - assert (Hi : fetch_block w2 (latest - i) = fetch_block w1 (latest - i)).
    { unfold fetch_block. now rewrite (H i (or_introl eq_refl)). }
    rewrite Hi. destruct (fetch_block w1 (latest - i)); cbn [Py.bind].
    + apply IH. intros j Hj. apply H. now right.
    + reflexivity.
Qed.

(** X4: a recent-blocks fetch looks at nothing but the block-number
    request and the block requests for latest, latest-1, ...,
    latest-(count-1): two worlds that agree on these give the same result,
    value or exception, whatever else the explorer would answer. *)
Theorem recent_blocks_reads_only_its_tags :
  forall w1 w2 count latest,
    latest_block_is w1 latest ->
    block_number w2 = block_number w1 ->
    (forall i, 0 <= i < count ->
               block_by_tag w2 ("0x" ++ format_hex (latest - i))
               = block_by_tag w1 ("0x" ++ format_hex (latest - i))) ->
    fetch_recent_blocks w2 count = fetch_recent_blocks w1 count.
Proof.
  intros w1 w2 count latest Hlatest Hnum Htags.
  assert (Hlatest2 : latest_block_is w2 latest).
  { destruct Hlatest as (r & data & Hr & Hrest). exists r, data.
    rewrite Hnum. now split. }
  rewrite (fetch_recent_blocks_after_latest w1 count latest Hlatest).
  rewrite (fetch_recent_blocks_after_latest w2 count latest Hlatest2).
  rewrite (fetch_blocks_loop_ext w1 w2 latest (range count) []); [reflexivity|].
  intros i Hi. apply Htags. now apply in_range.
Qed.

Lemma recent_blocks_reads_only_its_tags_witness :
  fetch_recent_blocks (Samples.explorer "0x10" Samples.unreachable) 5
  = fetch_recent_blocks
      (Samples.explorer "0x11" (Samples.with_status 503 VNone)) 5.
Proof.
  apply (recent_blocks_reads_only_its_tags _ _ 5 100).
  - eexists. eexists. repeat split; reflexivity.
  - reflexivity.
  - intros i Hi.
    assert (Hcases : i = 0 \/ i = 1 \/ i = 2 \/ i = 3 \/ i = 4) by lia.
    destruct Hcases as [-> | [-> | [-> | [-> | ->]]]];
      vm_compute; reflexivity.
Defined.

(** ** Price *)

(** X5: a price record of the first variant is never made up: whenever the
    fetch returns, the response had status 200 and the five values are the
    ones found in the body under ["ethereum"], unchanged. *)
Theorem price_record_is_upstream_data :
  forall w v,
    fetch_current_price w = Returned v ->
    exists r data eth usd btc cap vol change,
      price w = Returned r
      /\ status r = 200
      /\ json r = Returned data
      /\ subscript data "ethereum" = Returned eth
      /\ subscript eth "usd" = Returned usd
      /\ subscript eth "btc" = Returned btc
      /\ subscript eth "usd_market_cap" = Returned cap
      /\ subscript eth "usd_24h_vol" = Returned vol
      /\ subscript eth "usd_24h_change" = Returned change
      /\ v = VDict [("price_usd", usd);
                    ("price_btc", btc);
                    ("market_cap", cap);
                    ("volume_24h", vol);
                    ("change_24h", change);
                    ("timestamp", VStr (now_price w))].
Proof.
  intros w v H. unfold fetch_current_price, subscript2 in H.
  destruct (price w) as [r|e] eqn:Hr; cbn [Py.bind] in H; [|discriminate H].
  destruct (Z.eqb_spec (status r) 200) as [Hs|Hs]; [|discriminate H].
  destruct (json r) as [data|e] eqn:Hj; cbn [Py.bind] in H; [|discriminate H].
  destruct (subscript data "ethereum") as [eth|e] eqn:He;
    cbn [Py.bind] in H; [|discriminate H].
  returned H. injection H as <-.
  repeat eexists; eassumption.
Qed.

Lemma price_record_is_upstream_data_witness :
  exists r data eth usd btc cap vol change,
    price (Samples.world (Samples.ok Samples.price_body) Samples.unreachable
             Samples.unreachable Samples.unreachable
             (fun _ => Samples.unreachable)) = Returned r
    /\ status r = 200
    /\ json r = Returned data
    /\ subscript data "ethereum" = Returned eth
    /\ subscript eth "usd" = Returned usd
    /\ subscript eth "btc" = Returned btc
    /\ subscript eth "usd_market_cap" = Returned cap
    /\ subscript eth "usd_24h_vol" = Returned vol
    /\ subscript eth "usd_24h_change" = Returned change
    /\ VDict [("price_usd", VInt 3000);
              ("price_btc", VFloat (5 # 100));
              ("market_cap", VFloat 360000000000);
              ("volume_24h", VFloat 12000000000);
              ("change_24h", VFloat (25 # 10));
              ("timestamp", VStr Samples.t0)]
       = VDict [("price_usd", usd);
                ("price_btc", btc);
                ("market_cap", cap);
                ("volume_24h", vol);
                ("change_24h", change);
                ("timestamp", VStr Samples.t0)].
Proof.
  exact (price_record_is_upstream_data
           (Samples.world (Samples.ok Samples.price_body) Samples.unreachable
              Samples.unreachable Samples.unreachable
              (fun _ => Samples.unreachable))
           _ eq_refl).
Defined.

End SourceFacts.

(* ================================================================== *)
(** * Text conversions                                               *)
(* ================================================================== *)

Module TextFacts.
Import Py Measures.

(** ** Hexadecimal tags *)

Lemma hexchar_digit d :
  0 <= d < 16 ->
  digit_value 16 (hexchar d) = Some d
  /\ Ascii.eqb (hexchar d) "_"%char = false
  /\ is_space (hexchar d) = false.
Proof.
  intro Hd.
  assert (Hcases : d = 0 \/ d = 1 \/ d = 2 \/ d = 3 \/ d = 4 \/ d = 5
                   \/ d = 6 \/ d = 7 \/ d = 8 \/ d = 9 \/ d = 10 \/ d = 11
                   \/ d = 12 \/ d = 13 \/ d = 14 \/ d = 15) by lia.
  repeat (destruct Hcases as [-> | Hcases]; [vm_compute; auto|]).
  subst d. vm_compute. auto.
Qed.

Lemma scan_hex_digits ds acc count :
  Forall in_hex ds ->
  scan_digits 16 (map hexchar ds) false acc count
  = Some (fold_left (fun a d => a * 16 + d) ds acc,
          count + Z.of_nat (List.length ds)).
Proof.
  revert acc count. induction ds as [|d ds IH]; intros acc count Hds.
  - simpl. f_equal. f_equal. lia.
  - inversion Hds as [|? ? Hd Hrest]; subst.
    destruct (hexchar_digit d Hd) as (Hval & Hus & _).
    cbn [map scan_digits]. rewrite Hus, Hval, (IH _ _ Hrest).
    cbn [fold_left List.length]. f_equal. f_equal. lia.
Qed.

(** The characters that [hex_digits] puts in front of [acc] are the
    base-16 digits of [n], most significant first. *)
Lemma hex_digits_spec fuel n acc :
  0 <= n < 16 ^ Z.of_nat (S fuel) ->
  exists ds d,
    list_ascii_of_string (hex_digits (S fuel) n acc)
    = (map hexchar (ds ++ [d]) ++ list_ascii_of_string acc)%list
    /\ Forall in_hex (ds ++ [d])
    /\ forall a, fold_left (fun a d => a * 16 + d) (ds ++ [d]) a
                 = a * 16 ^ Z.of_nat (List.length (ds ++ [d])) + n.
Proof.
  revert n acc. induction fuel as [|fuel IH]; intros n acc Hn.
  - exists [], (n mod 16).
    assert (Hq : n / 16 = 0) by (apply Z.div_small; simpl in Hn; lia).
    assert (Hm : n mod 16 = n) by (apply Z.mod_small; simpl in Hn; lia).
    cbn [hex_digits]. rewrite Hq. cbn [Z.eqb app map list_ascii_of_string].
    repeat split.
    + constructor; [|constructor]. unfold in_hex. rewrite Hm. simpl in Hn. lia.
    + intro a. cbn [fold_left List.length]. rewrite Hm. simpl. lia.
  - assert (Hd : 0 <= n mod 16 < 16) by (apply Z.mod_pos_bound; lia).
    change (hex_digits (S (S fuel)) n acc)
      with (let acc' := String (hexchar (n mod 16)) acc in
            if n / 16 =? 0 then acc' else hex_digits (S fuel) (n / 16) acc').
    cbv zeta. destruct (Z.eqb_spec (n / 16) 0) as [Hq|Hq].
    + exists [], (n mod 16).
      assert (Hm : n mod 16 = n).
      { pose proof (Z.div_mod n 16 ltac:(lia)). lia. }
      cbn [app map list_ascii_of_string]. repeat split.
      * constructor; [exact Hd | constructor].
      * intro a. cbn [fold_left List.length]. rewrite Hm. simpl. lia.
    + assert (Hn' : 0 <= n / 16 < 16 ^ Z.of_nat (S fuel)).
      { split; [apply Z.div_pos; lia|].
        apply Z.div_lt_upper_bound; [lia|].
        replace (16 * 16 ^ Z.of_nat (S fuel)) with (16 ^ Z.of_nat (S (S fuel)));
          [lia|].
        rewrite (Nat2Z.inj_succ (S fuel)), Z.pow_succ_r by lia. reflexivity. }
      destruct (IH (n / 16) (String (hexchar (n mod 16)) acc) Hn')
        as (ds & d & Hchars & Hall & Hfold).
      exists (ds ++ [d])%list, (n mod 16).
      rewrite Hchars. cbn [list_ascii_of_string].
      repeat split.
      * rewrite !map_app, <- !app_assoc. reflexivity.
      * apply Forall_app. split; [exact Hall|]. constructor; [exact Hd|constructor].
      * intro a. rewrite fold_left_app, Hfold. cbn [fold_left].
        rewrite (length_app (ds ++ [d])). cbn [List.length].
        replace (Z.of_nat (List.length (ds ++ [d]) + 1))
          with (Z.succ (Z.of_nat (List.length (ds ++ [d])))) by lia.
        rewrite Z.pow_succ_r by lia.
        pose proof (Z.div_mod n 16 ltac:(lia)). lia.
Qed.

Lemma format_hex_fuel n :
  0 <= n -> 0 <= n < 16 ^ Z.of_nat (S (Z.to_nat (Z.log2 n))).
Proof.
  intro Hn. split; [assumption|].
  destruct (Z.eq_dec n 0) as [->|Hne]; [simpl; lia|].
  pose proof (Z.log2_spec n ltac:(lia)) as [_ Hup].
  pose proof (Z.log2_nonneg n) as Hlog.
  rewrite Nat2Z.inj_succ, Z2Nat.id by assumption.
  eapply Z.lt_le_trans; [exact Hup|].
  change 16 with (2 ^ 4). rewrite <- Z.pow_mul_r by lia.
  apply Z.pow_le_mono_r; lia.
Qed.

Lemma lstrip_keep c l : is_space c = false -> lstrip (c :: l) = c :: l.
Proof. intro H. simpl. now rewrite H. Qed.

Lemma strip_keep c l d :
  is_space c = false -> is_space d = false ->
  strip (c :: l ++ [d]) = (c :: l ++ [d])%list.
Proof.
  intros Hc Hd. unfold strip. rewrite (lstrip_keep c _ Hc).
  change (c :: l ++ [d])%list with ((c :: l) ++ [d])%list.
  rewrite rev_app_distr. cbn [rev app].
  rewrite (lstrip_keep d _ Hd).
  change (d :: rev l ++ [c])%list with ([d] ++ rev (c :: l))%list.
  rewrite rev_app_distr, rev_involutive. reflexivity.
Qed.

Lemma parse_int_hex_chars s c l n count :
  strip (list_ascii_of_string s) = ("0" :: "x" :: c :: l)%char%list ->
  Ascii.eqb c "_"%char = false ->
  scan_digits 16 (c :: l) false 0 0 = Some (n, count) ->
  parse_int 16 s = Lit n.
Proof.
  intros Hs Hc Hscan. unfold parse_int. rewrite Hs.
  destruct c as [b0 b1 b2 b3 b4 b5 b6 b7].
  destruct b0, b1, b2, b3, b4, b5, b6, b7; try discriminate Hc;
    cbn [skip_prefix Z.eqb Pos.eqb andb orb Ascii.eqb Bool.eqb];
    rewrite Hscan; cbn [Z.eqb andb]; f_equal; lia.
Qed.

(** X6: the tag requested for a block and the decoding applied to the
    explorer's block numbers are inverse to each other for every block
    number from 0 on: [int("0x" + format(n, "x"), 16)] is [n].  For a
    negative number, which the loop reaches when the latest block is
    smaller than count - 1, the tag is not a base-16 literal. *)
Theorem block_tag_round_trip :
  forall n,
    (0 <= n -> int16 (VStr ("0x" ++ format_hex n)) = Returned n)
    /\ (n < 0 -> is_raised (int16 (VStr ("0x" ++ format_hex n))) = true).
Proof.
  intro n. split; intro Hn.
  - unfold int16, int_of_text, format_hex.
    destruct (Z.ltb_spec n 0) as [Hneg|_]; [lia|].
    destruct (hex_digits_spec (Z.to_nat (Z.log2 n)) n EmptyString
                (format_hex_fuel n Hn)) as (ds & d & Hchars & Hall & Hfold).
    cbn [list_ascii_of_string] in Hchars. rewrite app_nil_r in Hchars.
    assert (Hd : in_hex d).
    { apply Forall_app in Hall as [_ Hd]. now inversion Hd. }
    assert (Hds : Forall in_hex ds) by (now apply Forall_app in Hall).
    destruct (hexchar_digit d Hd) as (_ & _ & Hspace).
    assert (Hstrip :
              strip (list_ascii_of_string
                       ("0x" ++ hex_digits (S (Z.to_nat (Z.log2 n))) n EmptyString))
              = ("0"%char :: "x"%char :: map hexchar (ds ++ [d]))%list).
    { cbn [append list_ascii_of_string]. rewrite Hchars, map_app.
      cbn [map].
      exact (strip_keep "0"%char ("x"%char :: map hexchar ds) (hexchar d)
                        eq_refl Hspace). }
    destruct (ds ++ [d])%list as [|e es] eqn:E;
      [destruct ds; discriminate E|].
    inversion Hall as [|? ? He Hes]; subst.
    destruct (hexchar_digit e He) as (Hval & Hus & _).
    cbn [map] in Hstrip.
    rewrite (parse_int_hex_chars _ (hexchar e) (map hexchar es)
               (fold_left (fun a d => a * 16 + d) es (0 * 16 + e))
               (0 + 1 + Z.of_nat (List.length es)) Hstrip Hus).
    + f_equal. specialize (Hfold 0). cbn [fold_left] in Hfold. lia.
    + cbn [scan_digits]. rewrite Hus, Hval. now apply scan_hex_digits.
  - unfold int16, int_of_text, parse_int, format_hex.
    destruct (Z.ltb_spec n 0) as [_|Hpos]; [|lia].
    destruct (hex_digits_spec (Z.to_nat (Z.log2 (- n))) (- n) EmptyString
                (format_hex_fuel (- n) ltac:(lia)))
      as (ds & d & Hchars & Hall & _).
    cbn [list_ascii_of_string] in Hchars. rewrite app_nil_r in Hchars.
    assert (Hd : in_hex d).
    { apply Forall_app in Hall as [_ Hd]. now inversion Hd. }
    destruct (hexchar_digit d Hd) as (_ & _ & Hspace).
    assert (Hstrip :
              strip (list_ascii_of_string
                       ("0x" ++ "-"
                          ++ hex_digits (S (Z.to_nat (Z.log2 (- n)))) (- n)
                               EmptyString))
              = ("0"%char :: "x"%char :: "-"%char
                   :: map hexchar (ds ++ [d]))%list).
    { cbn [append list_ascii_of_string]. rewrite Hchars, map_app.
      cbn [map].
      exact (strip_keep "0"%char
               ("x"%char :: "-"%char :: map hexchar ds) (hexchar d)
               eq_refl Hspace). }
    rewrite Hstrip. reflexivity.
Qed.

Lemma block_tag_round_trip_witness :
  int16 (VStr ("0x" ++ format_hex 19000000)) = Returned 19000000
  /\ is_raised (int16 (VStr ("0x" ++ format_hex (-1)))) = true.
Proof.
  split.
  - apply (proj1 (block_tag_round_trip 19000000)). lia.
  - apply (proj2 (block_tag_round_trip (-1))). lia.
Defined.

(** ** Decimal points *)

Lemma lstrip_In c l : In c l -> is_space c = false -> In c (lstrip l).
Proof.
  intros Hin Hc. induction l as [|x l IH]; [destruct Hin|].
  simpl. destruct (is_space x) eqn:Hx; [|exact Hin].
  destruct Hin as [->|Hin]; [congruence | now apply IH].
Qed.

Lemma strip_In c l : In c l -> is_space c = false -> In c (strip l).
Proof.
  intros Hin Hc. unfold strip. apply in_rev. rewrite rev_involutive.
  apply lstrip_In; [|assumption]. apply -> in_rev.
  now apply lstrip_In.
Qed.

Lemma scan_digits_point l prev acc count :
  In "."%char l -> scan_digits 10 l prev acc count = None.
Proof.
  revert prev acc count. induction l as [|c l IH]; intros prev acc count Hin;
    [destruct Hin|].
  cbn [scan_digits]. destruct (Ascii.eqb_spec c "_"%char) as [->|Hus].
  - destruct Hin as [Hc|Hin]; [discriminate Hc|].
    destruct prev; [reflexivity | now apply IH].
  - destruct Hin as [->|Hin]; [reflexivity|].
    destruct (digit_value 10 c); [now apply IH | reflexivity].
Qed.

Lemma skip_prefix_10 l : skip_prefix 10 l = l.
Proof.
  destruct l as [|c [|x l]]; try reflexivity.
  - destruct c as [[] [] [] [] [] [] [] []]; reflexivity.
  - destruct c as [[] [] [] [] [] [] [] []]; reflexivity.
Qed.

Lemma parse_int_point s :
  In "."%char (list_ascii_of_string s) -> parse_int 10 s = Malformed.
Proof.
  intro Hin. unfold parse_int.
  apply (strip_In _ _) in Hin; [|reflexivity].
  destruct (strip (list_ascii_of_string s)) as [|c l]; [destruct Hin|].
  assert (Hcases :
            exists sign l',
              (let '(sign, l0) :=
                 match (c :: l)%list with
                 | ("-"%char :: l')%list => (-1, l')
                 | ("+"%char :: l')%list => (1, l')
                 | _ => (1, (c :: l)%list)
                 end in (sign, l0)) = (sign, l')
              /\ In "."%char l').
  { destruct (Ascii.eqb_spec c "-"%char) as [->|Hm].
    - exists (-1), l. split; [reflexivity|].
      destruct Hin as [Hc|Hin]; [discriminate Hc | exact Hin].
    - destruct (Ascii.eqb_spec c "+"%char) as [->|Hp].
      + exists 1, l. split; [reflexivity|].
        destruct Hin as [Hc|Hin]; [discriminate Hc | exact Hin].
      + exists 1, (c :: l)%list. split; [|exact Hin].
        destruct c as [[] [] [] [] [] [] [] []]; try reflexivity;
          congruence. }
  destruct Hcases as (sign & l' & Hsign & Hin').
  destruct (match (c :: l)%list with
            | ("-"%char :: l')%list => (-1, l')
            | ("+"%char :: l')%list => (1, l')
            | _ => (1, (c :: l)%list)
            end) as [sign0 l0].
  injection Hsign as -> ->.
  rewrite skip_prefix_10.
  destruct l' as [|c' l'']; [destruct Hin'|].
  rewrite (scan_digits_point (c' :: l'') false 0 0 Hin').
  destruct c' as [[] [] [] [] [] [] [] []]; reflexivity.
Qed.

Lemma int_point s :
  In "."%char (list_ascii_of_string s) ->
  int (VStr s)
  = Raised (ValueError ("invalid literal for int() with base "
                          ++ str_int 10 ++ ": '" ++ s ++ "'")).
Proof.
  intro Hin. unfold int, int_of_text. now rewrite (parse_int_point s Hin).
Qed.

(** X7: a gas price quoted with a decimal point is not rounded: when any
    of the three fields present in the oracle's answer is text that
    contains a point, the gas fetch raises, in the first variant (status
    200) and in the second alike. *)
Theorem gas_price_with_decimal_point_fails :
  forall fields k s,
    In k ["SafeGasPrice"; "StandardGasPrice"; "FastGasPrice"] ->
    lookup k fields = Some (VStr s) ->
    In "."%char (list_ascii_of_string s) ->
    (forall w r d,
        Collector.gas w = Returned r -> Http.status r = 200 ->
        Http.json r = Returned (VDict d) ->
        lookup "result" d = Some (VDict fields) ->
        is_raised (Collector.fetch_gas_tracker w) = true)
    /\ (forall w r d,
          CollectorNew.gas w = Returned r ->
          Http.json r = Returned (VDict d) ->
          lookup "result" d = Some (VDict fields) ->
          is_raised (Effects.outcome (CollectorNew.collect_gas_data w)) = true).
Proof.
  intros fields k s Hk Hlook Hpoint.
  pose proof (int_point s Hpoint) as Hint.
  split.
  - intros w r d Hg Hs Hj Hres. unfold Collector.fetch_gas_tracker.
    rewrite Hg. cbn [bind]. rewrite Hs, Hj. cbn [bind Z.eqb Pos.eqb get].
    rewrite Hres. cbn [bind]. unfold Collector.int_or_zero.
    cbn [get bind].
    cbn [In] in Hk.
    destruct Hk as [<- | [<- | [<- | []]]]; rewrite ?Hlook; cbn [bind].
    + rewrite Hint. reflexivity.
    + destruct (match lookup "SafeGasPrice" fields with
                | Some x => Returned x
                | None => Returned (VInt 0)
                end) as [x|e]; cbn [bind]; [|reflexivity].
      destruct (int x); cbn [bind]; [|reflexivity].
      rewrite Hint. reflexivity.
    + destruct (match lookup "SafeGasPrice" fields with
                | Some x => Returned x
                | None => Returned (VInt 0)
                end) as [x|e]; cbn [bind]; [|reflexivity].
      destruct (int x); cbn [bind]; [|reflexivity].
      destruct (match lookup "StandardGasPrice" fields with
                | Some x => Returned x
                | None => Returned (VInt 0)
                end) as [y|e]; cbn [bind]; [|reflexivity].
      destruct (int y); cbn [bind]; [|reflexivity].
      rewrite Hint. reflexivity.
  - intros w r d Hg Hj Hres.
    unfold CollectorNew.collect_gas_data.
    destruct (CollectorNew.subscript2 (CollectorNew.config w)
                "etherscan" "api_key") as [key|e]; [|reflexivity].
    unfold CollectorNew.gas_request, CollectorNew.int_field,
      CollectorNew.subscript2.
    rewrite Hg. cbn [Effects.lift Effects.iobind]. rewrite Hj.
    cbn [subscript bind]. rewrite Hres. cbn [bind subscript].
    cbn [In] in Hk.
    destruct Hk as [<- | [<- | [<- | []]]].
    + rewrite Hlook. cbn [bind]. rewrite Hint. reflexivity.
    + destruct (lookup "SafeGasPrice" fields) as [x|]; cbn [bind];
        [|reflexivity].
      destruct (int x); [|reflexivity].
      rewrite Hlook. cbn [bind]. rewrite Hint. reflexivity.
    + destruct (lookup "SafeGasPrice" fields) as [x|]; cbn [bind];
        [|reflexivity].
      destruct (int x); [|reflexivity].
      destruct (lookup "StandardGasPrice" fields) as [y|]; cbn [bind];
        [|reflexivity].
      destruct (int y); [|reflexivity].
      rewrite Hlook. cbn [bind]. rewrite Hint. reflexivity.
Qed.

Lemma gas_price_with_decimal_point_fails_witness :
  is_raised
    (Collector.fetch_gas_tracker
       (Samples.world Samples.unreachable
          (Samples.ok (VDict [("result",
                               VDict [("SafeGasPrice", VStr "0.516");
                                      ("StandardGasPrice", VStr "1");
                                      ("FastGasPrice", VStr "2")])]))
          Samples.unreachable Samples.unreachable
          (fun _ => Samples.unreachable)))
  = true.
Proof.
  destruct (gas_price_with_decimal_point_fails
              [("SafeGasPrice", VStr "0.516");
               ("StandardGasPrice", VStr "1");
               ("FastGasPrice", VStr "2")]
              "SafeGasPrice" "0.516") as [Hfirst _].
  - simpl. tauto.
  - reflexivity.
  - simpl. tauto.
  - apply (Hfirst _ (Http.Response 200
                       (Returned (VDict [("result",
                               VDict [("SafeGasPrice", VStr "0.516");
                                      ("StandardGasPrice", VStr "1");
                                      ("FastGasPrice", VStr "2")])])))
                    [("result",
                      VDict [("SafeGasPrice", VStr "0.516");
                             ("StandardGasPrice", VStr "1");
                             ("FastGasPrice", VStr "2")])]);
      reflexivity.
Defined.

(** ** Addresses in transfer topics *)

Lemma length_append s1 s2 :
  String.length (s1 ++ s2) = (String.length s1 + String.length s2)%nat.
Proof. induction s1 as [|c s1 IH]; simpl; [reflexivity | now rewrite IH]. Qed.

Lemma substring_all s : String.substring 0 (String.length s) s = s.
Proof. induction s as [|c s IH]; simpl; [reflexivity | now rewrite IH]. Qed.

Lemma substring_skip pre s m :
  String.substring (String.length pre) m (pre ++ s) = String.substring 0 m s.
Proof. induction pre as [|c pre IH]; simpl; [reflexivity | exact IH]. Qed.

(** X8: the address taken from a transfer topic is ["0x"] followed by the
    last 40 characters of the topic, so a topic that pads an address to 32
    bytes gives back the address; a topic of fewer than 40 characters is
    not refused, it is copied whole after ["0x"]. *)
Theorem topic_address_takes_last_40 :
  forall log topics i pre addr,
    subscript log "topics" = Returned (VList topics) ->
    nth_error topics i = Some (VStr (pre ++ addr)) ->
    String.length addr = 40%nat
    \/ (pre = EmptyString /\ (String.length addr <= 40)%nat) ->
    CollectorNew.topic_address log i = Returned (VStr ("0x" ++ addr)).
Proof.
  intros log topics i pre addr Htopics Hnth Hshape.
  unfold CollectorNew.topic_address. rewrite Htopics. cbn [bind index].
  rewrite Hnth. cbn [bind suffix concat]. do 2 f_equal.
  destruct Hshape as [Hlen | [-> Hlen]].
  - rewrite length_append, Hlen.
    replace (String.length pre + 40 - 40)%nat with (String.length pre) by lia.
    replace (Nat.min 40 (String.length pre + 40)) with (String.length addr)
      by lia.
    rewrite substring_skip. now rewrite substring_all.
  - cbn [append].
    replace (String.length addr - 40)%nat with 0%nat by lia.
    replace (Nat.min 40 (String.length addr)) with (String.length addr) by lia.
    now rewrite substring_all.
Qed.

Lemma topic_address_takes_last_40_witness :
  CollectorNew.topic_address
    (VDict [("topics",
             VList [VStr "0xddf252ad1be2c89b69c2b068fc378daa952ba7f163c4a11628f55a4df523b3ef";
                    VStr ("0x000000000000000000000000"
                            ++ "a9d1e08c7793af67e9d92fe308d5697fb81d3e43")])])
    1
  = Returned (VStr ("0x" ++ "a9d1e08c7793af67e9d92fe308d5697fb81d3e43")).
Proof.
  apply (topic_address_takes_last_40 _
           [VStr "0xddf252ad1be2c89b69c2b068fc378daa952ba7f163c4a11628f55a4df523b3ef";
            VStr ("0x000000000000000000000000"
                    ++ "a9d1e08c7793af67e9d92fe308d5697fb81d3e43")]
           1 "0x000000000000000000000000"
           "a9d1e08c7793af67e9d92fe308d5697fb81d3e43").
  - reflexivity.
  - reflexivity.
  - left. reflexivity.
Defined.

End TextFacts.

(* ================================================================== *)
(** * Further properties of the second variant's cycle               *)
(* ================================================================== *)

Module CycleFacts.
Import Py Http Effects EffectsFacts TraceMeasures CollectorNew.
Local Open Scope io_scope.

Section Payload.
Context {payload : Type}.
Implicit Types t : list (event payload).

Lemma every_delivery_app (P : payload -> Prop) t1 t2 :
  every_delivery P t1 -> every_delivery P t2 -> every_delivery P (t1 ++ t2).
Proof.
  intros H1 H2 p verdict Hin. apply in_app_or in Hin as [Hin|Hin]; eauto.
Qed.

Lemma every_delivery_nil (P : payload -> Prop) : every_delivery P [].
Proof. intros p verdict []. Qed.

Lemma every_delivery_log (P : payload -> Prop) lvl template args :
  every_delivery P [Log lvl template args].
Proof. intros p verdict [H|[]]. discriminate H. Qed.

Lemma every_delivery_one (P : payload -> Prop) p verdict :
  P p -> every_delivery P [Deliver p verdict].
Proof. intros Hp q v [H|[]]. now injection H as <- _. Qed.

Lemma every_bind {A B} (P : payload -> Prop)
      (c : io payload A) (k : A -> io payload B) :
  every_delivery P (trace c) ->
  (forall a, outcome c = Returned a -> every_delivery P (trace (k a))) ->
  every_delivery P (trace (iobind c k)).
Proof.
  unfold iobind, trace, outcome. intros Hc Hk.
  destruct c as [t [a|e]]; cbn [fst snd] in *; [|assumption].
  specialize (Hk a eq_refl). destruct (k a) as [t' r]. cbn [fst] in *.
  now apply every_delivery_app.
Qed.

Lemma every_try {A} (P : payload -> Prop)
      (c : io payload A) (h : exn -> io payload A) :
  every_delivery P (trace c) ->
  (forall e, every_delivery P (trace (h e))) ->
  every_delivery P (trace (try_except c h)).
Proof.
  unfold try_except, trace. intros Hc Hh.
  destruct c as [t [a|e]]; cbn [fst] in *; [assumption|].
  specialize (Hh e). destruct (h e) as [t' r]. cbn [fst] in *.
  now apply every_delivery_app.
Qed.

Lemma has_error_line_app t1 t2 :
  has_error_line (t1 ++ t2) = has_error_line t1 || has_error_line t2.
Proof. unfold has_error_line. apply existsb_app. Qed.

Lemma errors_bind {A B} (c : io payload A) (k : A -> io payload B) :
  errors_only_when_raised c -> (forall a, errors_only_when_raised (k a)) ->
  errors_only_when_raised (iobind c k).
Proof.
  unfold errors_only_when_raised, iobind, trace, outcome. intros Hc Hk.
  destruct c as [t [a|e]]; cbn [fst snd] in *; [|assumption].
  specialize (Hk a). destruct (k a) as [t' r]. cbn [fst snd] in *.
  rewrite has_error_line_app. intro H. apply orb_true_iff in H as [H|H].
  - discriminate (Hc H).
  - now apply Hk.
Qed.

Lemma errors_try {A} (c : io payload A) (h : exn -> io payload A) :
  errors_only_when_raised c ->
  (forall e, is_raised (outcome (h e)) = true) ->
  errors_only_when_raised (try_except c h).
Proof.
  unfold errors_only_when_raised, try_except, trace, outcome. intros Hc Hh.
  destruct c as [t [a|e]]; cbn [fst snd] in *; [assumption|].
  specialize (Hh e). destruct (h e) as [t' r]. cbn [fst snd] in *.
  intros _. exact Hh.
Qed.

Lemma errors_quiet {A} (c : io payload A) :
  has_error_line (trace c) = false -> errors_only_when_raised c.
Proof. unfold errors_only_when_raised. intros H1 H2. congruence. Qed.

Lemma deliveries_bind_le {A B} (c : io payload A) (k : A -> io payload B) m n :
  (deliveries (trace c) <= m)%nat ->
  (forall a, outcome c = Returned a -> (deliveries (trace (k a)) <= n)%nat) ->
  (deliveries (trace (iobind c k)) <= m + n)%nat.
Proof.
  unfold iobind, trace, outcome. intros Hc Hk.
  destruct c as [t [a|e]]; cbn [fst snd] in *; [|lia].
  specialize (Hk a eq_refl). destruct (k a) as [t' r]. cbn [fst] in *.
  rewrite deliveries_app. lia.
Qed.

Lemma delivered_app t1 t2 :
  delivered (t1 ++ t2) = (delivered t1 ++ delivered t2)%list.
Proof. unfold delivered. apply flat_map_app. Qed.

Lemma delivered_none t : (deliveries t <= 0)%nat -> delivered t = [].
Proof.
  unfold deliveries. induction t as [|ev t IH]; [reflexivity|].
  destruct ev; simpl; intro H; try (apply IH; exact H). lia.
Qed.

(** How a bind that returned went. *)
Lemma iobind_returned {A B} (c : io payload A) (k : A -> io payload B) b :
  outcome (iobind c k) = Returned b ->
  exists a, outcome c = Returned a
            /\ outcome (k a) = Returned b
            /\ trace (iobind c k) = (trace c ++ trace (k a))%list.
Proof.
  unfold iobind, trace, outcome.
  destruct c as [t [a|e]]; cbn [fst snd]; [|discriminate].
  intro H. exists a. destruct (k a) as [t' r]. cbn [fst snd] in *. auto.
Qed.

Lemma deliveries_try_le {A} (c : io payload A) (h : exn -> io payload A) m :
  (deliveries (trace c) <= m)%nat ->
  (forall e, deliveries (trace (h e)) = 0%nat) ->
  (deliveries (trace (try_except c h)) <= m)%nat.
Proof.
  unfold try_except, trace. intros Hc Hh.
  destruct c as [t [a|e]]; cbn [fst] in *; [assumption|].
  specialize (Hh e). destruct (h e) as [t' r]. cbn [fst] in *.
  rewrite deliveries_app. lia.
Qed.

Lemma try_except_returned {A} (c : io payload A) (h : exn -> io payload A) a :
  (forall e, is_raised (outcome (h e)) = true) ->
  outcome (try_except c h) = Returned a ->
  outcome c = Returned a /\ trace (try_except c h) = trace c.
Proof.
  unfold try_except, outcome, trace. intros Hh.
  destruct c as [t [a'|e]]; cbn [fst snd]; [auto|].
  specialize (Hh e). destruct (h e) as [t' r]. cbn [fst snd] in *.
  intros ->. discriminate Hh.
Qed.
End Payload.

Ltac reraises := let e := fresh "e" in intro e; try destruct e; reflexivity.

Ltac no_delivery_in_handler :=
  let e := fresh "e" in
  let Hin := fresh "Hin" in
  intro e; try destruct e; intros ? ? Hin; cbn in Hin;
  repeat (destruct Hin as [Hin|Hin]; [discriminate Hin|]); destruct Hin.

Ltac every :=
  cbv zeta;
  repeat lazymatch goal with
    | |- every_delivery _ (trace (ret _)) => apply every_delivery_nil
    | |- every_delivery _ (trace (lift _)) => apply every_delivery_nil
    | |- every_delivery _ (trace (emit (Log _ _ _))) =>
        apply every_delivery_log
    | |- every_delivery _ (trace (iobind _ _)) =>
        apply every_bind; [|intros ? ?; cbv zeta]
    | |- every_delivery _ (trace (try_except _ _)) =>
        apply every_try; [|no_delivery_in_handler]
    end.

Ltac errors :=
  cbv zeta;
  repeat lazymatch goal with
    | |- errors_only_when_raised (ret _) => apply errors_quiet; reflexivity
    | |- errors_only_when_raised (lift _) => apply errors_quiet; reflexivity
    | |- errors_only_when_raised (deliver _ _) =>
        apply errors_quiet; reflexivity
    | |- errors_only_when_raised (emit (Log INFO _ _)) =>
        apply errors_quiet; reflexivity
    | |- errors_only_when_raised (iobind _ _) =>
        apply errors_bind; [|intro; cbv zeta]
    | |- errors_only_when_raised (try_except _ _) =>
        apply errors_try; [|reraises]
    end.

Ltac at_most :=
  cbv zeta;
  repeat lazymatch goal with
    | |- (deliveries (trace (ret _)) <= _)%nat => apply Nat.le_0_l
    | |- (deliveries (trace (lift _)) <= _)%nat => apply Nat.le_0_l
    | |- (deliveries (trace (emit (Log _ _ _))) <= _)%nat => apply Nat.le_0_l
    | |- (deliveries (trace (deliver _ _)) <= 1)%nat => apply Nat.le_refl
    | |- (deliveries (trace (try_except _ _)) <= _)%nat =>
        apply deliveries_try_le; [|reraises]
    end.

(** ** What a collection cycle of the second variant delivers *)

Lemma ingest_well_targeted w data table verdict :
  data <> [] -> In table raw_tables ->
  every_delivery (well_targeted w) (trace (ingest_to_kusto w data table verdict)).
Proof.
  intros Hdata Htable. unfold ingest_to_kusto.
  apply every_try; [|no_delivery_in_handler].
  apply every_bind; [apply every_delivery_nil | intros db Hdb].
  apply every_bind; [|intros; apply every_delivery_log].
  apply every_delivery_one. repeat split; assumption.
Qed.

Lemma collect_erc20_transfers_delivers_nothing (P : ingestion -> Prop) w c a :
  every_delivery P (trace (collect_erc20_transfers w c a)).
Proof. unfold collect_erc20_transfers, transfers_request. every. Qed.

Lemma contracts_loop_well_targeted w n cs :
  every_delivery (well_targeted w) (trace (contracts_loop w n cs)).
Proof.
  revert n. induction cs as [|contract rest IH]; intro n;
    cbn [contracts_loop].
  - apply every_delivery_nil.
  - apply every_bind; [apply every_delivery_nil | intros address _].
    apply every_bind;
      [apply collect_erc20_transfers_delivers_nothing | intros transfers _].
    apply every_bind; [|intros; apply IH].
    destruct transfers; [apply every_delivery_nil|].
    apply ingest_well_targeted; [discriminate | simpl; tauto].
Qed.

(** X9: whatever a collection cycle of the second variant hands to the
    store is a non-empty batch of rows, goes to one of the three raw
    tables, and names the database found under kusto/database in the
    configuration; in particular no ingestion is attempted for a contract
    without transfers. *)
Theorem cycle_ingestions_well_targeted :
  forall w p verdict,
    In (Deliver p verdict) (trace (run_collection_cycle w)) ->
    rows p <> []
    /\ In (table_name p) ["eth_price_raw"; "eth_gas_raw"; "erc20_transfers_raw"]
    /\ subscript2 (config w) "kusto" "database" = Returned (database p).
Proof.
  intros w p verdict. revert p verdict.
  change (every_delivery (well_targeted w) (trace (run_collection_cycle w))).
  unfold run_collection_cycle, collect_eth_price_data, price_request,
    collect_gas_data, gas_request.
  every;
    first [ apply ingest_well_targeted; [discriminate | simpl; tauto]
          | apply contracts_loop_well_targeted ].
Qed.

Lemma cycle_ingestions_well_targeted_witness :
  rows (Ingestion (VStr "ethereum") "eth_price_raw"
          [VDict [("timestamp", VStr Samples.t0);
                  ("price_usd", VInt 3000);
                  ("market_cap", VFloat 360000000000);
                  ("volume_24h", VFloat 12000000000);
                  ("change_24h", VFloat (25 # 10))]]) <> []
  /\ In "eth_price_raw" ["eth_price_raw"; "eth_gas_raw"; "erc20_transfers_raw"]
  /\ subscript2 Samples.new_config "kusto" "database"
     = Returned (VStr "ethereum").
Proof.
  apply (cycle_ingestions_well_targeted
           (Samples.new_world (Samples.ok Samples.price_body)
              Samples.unreachable None None)
           (Ingestion (VStr "ethereum") "eth_price_raw"
              [VDict [("timestamp", VStr Samples.t0);
                      ("price_usd", VInt 3000);
                      ("market_cap", VFloat 360000000000);
                      ("volume_24h", VFloat 12000000000);
                      ("change_24h", VFloat (25 # 10))]])
           None).
  vm_compute. right. left. reflexivity.
Defined.

(** ** Error lines of a cycle *)

Lemma ingest_errors w data table verdict :
  errors_only_when_raised (ingest_to_kusto w data table verdict).
Proof. unfold ingest_to_kusto. errors. Qed.

Lemma collect_erc20_transfers_errors w c a :
  errors_only_when_raised (collect_erc20_transfers w c a).
Proof. unfold collect_erc20_transfers, transfers_request. errors. Qed.

Lemma contracts_loop_errors w n cs :
  errors_only_when_raised (contracts_loop w n cs).
Proof.
  revert n. induction cs as [|contract rest IH]; intro n;
    cbn [contracts_loop].
  - apply errors_quiet. reflexivity.
  - apply errors_bind; [apply errors_quiet; reflexivity | intro address].
    apply errors_bind; [apply collect_erc20_transfers_errors | intro transfers].
    apply errors_bind; [|intros _; apply IH].
    destruct transfers; [apply errors_quiet; reflexivity | apply ingest_errors].
Qed.

Lemma run_collection_cycle_errors w :
  errors_only_when_raised (run_collection_cycle w).
Proof.
  unfold run_collection_cycle, collect_eth_price_data, price_request,
    collect_gas_data, gas_request.
  errors; first [ apply ingest_errors | apply contracts_loop_errors ].
Qed.

(** X10: a cycle of the second variant never fails silently and never
    cries wolf.  When it raises, the last thing it did was to log, at
    level ERROR, that the cycle failed, with the text of the exception it
    raises; when it returns, it logged nothing at level ERROR and its last
    line reports the successful completion. *)
Theorem cycle_logs_its_outcome :
  forall w,
    (forall e,
        outcome (run_collection_cycle w) = Raised e ->
        exists t,
          trace (run_collection_cycle w)
          = (t ++ [Log ERROR "Collection cycle failed: {}"
                       [AStr (str_exn e)]])%list)
    /\ (outcome (run_collection_cycle w) = Returned tt ->
        has_error_line (trace (run_collection_cycle w)) = false
        /\ exists t,
            trace (run_collection_cycle w)
            = (t ++ [Log INFO "Collection cycle completed successfully"
                         []])%list).
Proof.
  intro w. split.
  - intros e H. unfold run_collection_cycle, try_except, outcome, trace in *.
    match goal with
    | H : snd (match ?body with _ => _ end) = _ |- _ =>
        destruct body as [t [[]|e']]; cbn [fst snd] in *
    end; [discriminate H|].
    cbn [iobind emit lift fst snd app] in *. injection H as ->. eauto.
  - intro H. split.
    + pose proof (run_collection_cycle_errors w) as Hq.
      unfold errors_only_when_raised in Hq. rewrite H in Hq.
      destruct (has_error_line (trace (run_collection_cycle w)));
        [discriminate (Hq eq_refl) | reflexivity].
    + unfold run_collection_cycle in *.
      apply try_except_returned in H as [Hbody ->]; [|reraises].
      repeat match goal with
        | H : outcome (iobind _ _) = Returned _ |- _ =>
            apply iobind_returned in H as (? & ? & H & ->)
        end.
      eexists. rewrite !app_assoc. reflexivity.
Qed.

Lemma cycle_logs_its_outcome_witness :
  exists t,
    trace (run_collection_cycle
             (Samples.new_world Samples.unreachable Samples.unreachable
                None None))
    = (t ++ [Log ERROR "Collection cycle failed: {}"
                 [AStr "Cannot connect to host"]])%list.
Proof.
  apply (proj1 (cycle_logs_its_outcome
                  (Samples.new_world Samples.unreachable Samples.unreachable
                     None None))
               (ClientError "Cannot connect to host")).
  vm_compute. reflexivity.
Defined.

(** ** Failing fast *)

Lemma collect_eth_price_data_delivers_nothing w :
  (deliveries (trace (collect_eth_price_data w)) <= 0)%nat.
Proof.
  unfold collect_eth_price_data, price_request.
  apply deliveries_try_le; [|reraises].
  repeat (apply (deliveries_bind_le _ _ 0 0);
          [apply Nat.le_0_l | intros ? _]).
  apply Nat.le_0_l.
Qed.

Lemma collect_gas_data_delivers_nothing w :
  (deliveries (trace (collect_gas_data w)) <= 0)%nat.
Proof.
  unfold collect_gas_data, gas_request.
  apply (deliveries_bind_le _ _ 0 0); [apply Nat.le_0_l | intros ? _].
  apply deliveries_try_le; [|reraises].
  repeat (apply (deliveries_bind_le _ _ 0 0);
          [apply Nat.le_0_l | intros ? _]).
  apply Nat.le_0_l.
Qed.

(** X11: the second variant's cycle stops at the first source that fails.
    When the price collection raises, the cycle raises the same exception
    and nothing at all is handed to the store in that cycle, the gas data
    included. *)
Theorem cycle_ingests_nothing_without_price :
  forall w e,
    outcome (collect_eth_price_data w) = Raised e ->
    outcome (run_collection_cycle w) = Raised e
    /\ deliveries (trace (run_collection_cycle w)) = 0%nat
    /\ trace (run_collection_cycle w)
       = (trace (collect_eth_price_data w)
            ++ [Log ERROR "Collection cycle failed: {}"
                    [AStr (str_exn e)]])%list.
Proof.
  intros w e H. pose proof (collect_eth_price_data_delivers_nothing w) as Hd.
  unfold run_collection_cycle.
  destruct (collect_eth_price_data w) as [t r].
  unfold outcome, trace in *. cbn [fst snd] in *. subst r.
  cbn [iobind try_except emit lift fst snd app].
  repeat split. rewrite deliveries_app. cbn. lia.
Qed.

Lemma cycle_ingests_nothing_without_price_witness :
  outcome (run_collection_cycle
             (Samples.new_world (Samples.with_status 429 (VDict []))
                (Samples.ok Samples.gas_body) None None))
  = Raised (KeyError "'ethereum'")
  /\ deliveries
       (trace (run_collection_cycle
                 (Samples.new_world (Samples.with_status 429 (VDict []))
                    (Samples.ok Samples.gas_body) None None)))
     = 0%nat.
Proof.
  destruct (cycle_ingests_nothing_without_price
              (Samples.new_world (Samples.with_status 429 (VDict []))
                 (Samples.ok Samples.gas_body) None None)
              (KeyError "'ethereum'") eq_refl) as (Hout & Hnone & _).
  split; assumption.
Defined.

(** X12: there is no rollback.  When the price row has been accepted by
    the store and the gas collection then raises, the cycle raises that
    exception and the ingestion of the price row into eth_price_raw is the
    only call of the store in the cycle. *)
Theorem cycle_keeps_price_when_gas_fails :
  forall w price_data db e,
    outcome (collect_eth_price_data w) = Returned price_data ->
    subscript2 (config w) "kusto" "database" = Returned db ->
    ingest_price w = None ->
    outcome (collect_gas_data w) = Raised e ->
    outcome (run_collection_cycle w) = Raised e
    /\ delivered (trace (run_collection_cycle w))
       = [(Ingestion db "eth_price_raw" [price_data], None)].
Proof.
  intros w price_data db e Hprice Hdb Hingest Hgas.
  pose proof (delivered_none _ (collect_eth_price_data_delivers_nothing w))
    as Hd1.
  pose proof (delivered_none _ (collect_gas_data_delivers_nothing w)) as Hd2.
  unfold run_collection_cycle, ingest_to_kusto.
  destruct (collect_eth_price_data w) as [t1 r1].
  destruct (collect_gas_data w) as [t2 r2].
  unfold outcome, trace in *. cbn [fst snd] in *. subst r1 r2.
  rewrite Hdb, Hingest.
  cbn [iobind try_except emit lift deliver fst snd app].
  split; [reflexivity|].
  unfold delivered in *. rewrite !flat_map_app, Hd1.
  cbn [flat_map app]. rewrite Hd2. reflexivity.
Qed.

Lemma cycle_keeps_price_when_gas_fails_witness :
  delivered
    (trace (run_collection_cycle
              (Samples.new_world (Samples.ok Samples.price_body)
                 Samples.unreachable None None)))
  = [(Ingestion (VStr "ethereum") "eth_price_raw"
        [VDict [("timestamp", VStr Samples.t0);
                ("price_usd", VInt 3000);
                ("market_cap", VFloat 360000000000);
                ("volume_24h", VFloat 12000000000);
                ("change_24h", VFloat (25 # 10))]], None)].
Proof.
  apply (cycle_keeps_price_when_gas_fails
           (Samples.new_world (Samples.ok Samples.price_body)
              Samples.unreachable None None)
           _ (VStr "ethereum") (ClientError "Cannot connect to host")
           eq_refl eq_refl eq_refl eq_refl).
Defined.

(** ** How many calls of the store *)

Lemma ingest_at_most_one w data table verdict :
  (deliveries (trace (ingest_to_kusto w data table verdict)) <= 1)%nat.
Proof.
  unfold ingest_to_kusto. apply deliveries_try_le; [|reraises].
  apply (deliveries_bind_le _ _ 0 1); [apply Nat.le_0_l | intros db _].
  apply (deliveries_bind_le _ _ 1 0); [apply Nat.le_refl | intros _ _].
  apply Nat.le_0_l.
Qed.

Lemma collect_erc20_transfers_no_call w c a :
  (deliveries (trace (collect_erc20_transfers w c a)) <= 0)%nat.
Proof.
  unfold collect_erc20_transfers, transfers_request.
  apply (deliveries_bind_le _ _ 0 0); [apply Nat.le_0_l | intros ? _].
  apply (deliveries_bind_le _ _ 0 0); [apply Nat.le_0_l | intros ? _].
  apply deliveries_try_le; [|reraises].
  repeat (apply (deliveries_bind_le _ _ 0 0);
          [apply Nat.le_0_l | intros ? _]).
  apply Nat.le_0_l.
Qed.

Lemma contracts_loop_at_most w n cs :
  (deliveries (trace (contracts_loop w n cs)) <= List.length cs)%nat.
Proof.
  revert n. induction cs as [|contract rest IH]; intro n;
    cbn [contracts_loop List.length].
  - apply Nat.le_0_l.
  - apply (deliveries_bind_le _ _ 0 (S (List.length rest)));
      [apply Nat.le_0_l | intros address _].
    apply (deliveries_bind_le _ _ 0 (S (List.length rest)));
      [apply collect_erc20_transfers_no_call | intros transfers _].
    apply (deliveries_bind_le _ _ 1 (List.length rest));
      [|intros _ _; apply IH].
    destruct transfers; [apply Nat.le_0_l | apply ingest_at_most_one].
Qed.

(** X13: a cycle of the second variant calls the store at most once for
    the price, once for the gas data and once per configured contract:
    with [n] entries under erc20_contracts it makes at most [2 + n]
    ingestions, however the cycle ends. *)
Theorem cycle_ingestions_bounded :
  forall w cs,
    Py.bind (get (config w) "erc20_contracts" (VList [])) iter = Returned cs ->
    (deliveries (trace (run_collection_cycle w)) <= 2 + List.length cs)%nat.
Proof.
  intros w cs Hcs. unfold run_collection_cycle.
  apply deliveries_try_le; [|reraises].
  apply (Nat.le_trans _ (0 + (1 + (0 + (1 + (0 + (List.length cs + 0)))))));
    [|lia].
  apply deliveries_bind_le;
    [apply collect_eth_price_data_delivers_nothing | intros price_data _].
  apply deliveries_bind_le; [apply ingest_at_most_one | intros _ _].
  apply deliveries_bind_le;
    [apply collect_gas_data_delivers_nothing | intros gas_data _].
  apply deliveries_bind_le; [apply ingest_at_most_one | intros _ _].
  apply deliveries_bind_le; [apply Nat.le_0_l | intros cs' Hcs'].
  unfold outcome, lift in Hcs'. cbn [snd] in Hcs'.
  rewrite Hcs in Hcs'. injection Hcs' as <-.
  apply deliveries_bind_le; [apply contracts_loop_at_most | intros _ _].
  apply Nat.le_0_l.
Qed.

Lemma cycle_ingestions_bounded_witness :
  (deliveries
     (trace (run_collection_cycle
               (Samples.new_world (Samples.ok Samples.price_body)
                  (Samples.ok Samples.gas_body) None None)))
   <= 2 + 0)%nat.
Proof.
  apply (cycle_ingestions_bounded
           (Samples.new_world (Samples.ok Samples.price_body)
              (Samples.ok Samples.gas_body) None None) []).
  reflexivity.
Defined.

(** ** Transfers *)

Lemma transfers_loop_pointwise c n entries transfers :
  transfers_loop c n entries = Returned transfers ->
  List.length transfers = List.length entries
  /\ forall k log,
      nth_error entries k = Some log ->
      exists t, transfer_record (now_log c (n + k)) log = Returned t
                /\ nth_error transfers k = Some t.
Proof.
  revert n transfers.
  induction entries as [|log0 rest IH]; intros n transfers H;
    cbn [transfers_loop] in H.
  - injection H as <-. split; [reflexivity|]. intros [|k] log Hk; discriminate.
  - destruct (transfer_record (now_log c n) log0) as [t0|e] eqn:Ht0;
      cbn [bind] in H; [|discriminate H].
    destruct (transfers_loop c (S n) rest) as [ts|e] eqn:Hts;
      cbn [bind] in H; [|discriminate H].
    injection H as <-. destruct (IH _ _ Hts) as [Hlen Hpoint].
    split; [simpl; now rewrite Hlen|].
    intros [|k] log Hk; cbn [nth_error] in *.
    + injection Hk as <-. exists t0. rewrite Nat.add_0_r. auto.
    + destruct (Hpoint k log Hk) as (t & Ht & Hnth). exists t.
      rewrite Nat.add_succ_r. auto.
Qed.

(** X14: a transfer collection is all or nothing.  When it returns, the
    log query was made from block latest - 100, and the list has exactly
    one record per entry of the answer's ["result"], in the same order,
    each the conversion of its entry; so an entry that cannot be
    converted leaves no partial list, the whole collection raises. *)
Theorem transfers_one_record_per_log :
  forall w c address transfers,
    outcome (collect_erc20_transfers w c address) = Returned transfers ->
    exists latest r data entries,
      get_latest_block w c = Returned latest
      /\ logs c address (latest - 100) = Returned r
      /\ json r = Returned data
      /\ Py.bind (get data "result" (VList [])) iter = Returned entries
      /\ List.length transfers = List.length entries
      /\ forall k log,
          nth_error entries k = Some log ->
          exists t, transfer_record (now_log c k) log = Returned t
                    /\ nth_error transfers k = Some t.
Proof.
  intros w c address transfers H. unfold collect_erc20_transfers in H.
  apply iobind_returned in H as (latest & Hlatest & H & _).
  apply iobind_returned in H as (key & _ & H & _).
  apply try_except_returned in H as [H _]; [|reraises].
  unfold transfers_request in H.
  apply iobind_returned in H as (r & Hr & H & _).
  apply iobind_returned in H as (data & Hdata & H & _).
  apply iobind_returned in H as (entries & Hentries & H & _).
  apply iobind_returned in H as (ts & Hts & H & _).
  apply iobind_returned in H as (u & _ & H & _).
  unfold outcome, lift, ret in *. cbn [snd] in *. injection H as <-.
  exists latest, r, data, entries.
  destruct (transfers_loop_pointwise c 0 entries ts Hts) as [Hlen Hpoint].
  repeat split; assumption.
Qed.

(** ** Gas, second variant *)

(** X15: the second variant never puts a default in a gas record: when
    the gas collection returns, each of the three fields was present
    under ["result"] in the body and the record holds its conversion by
    [int]. *)
Theorem gas_record_has_no_default :
  forall w v,
    outcome (collect_gas_data w) = Returned v ->
    exists r data x y z safe standard fast,
      gas w = Returned r
      /\ json r = Returned data
      /\ subscript2 data "result" "SafeGasPrice" = Returned x
      /\ subscript2 data "result" "StandardGasPrice" = Returned y
      /\ subscript2 data "result" "FastGasPrice" = Returned z
      /\ int x = Returned safe
      /\ int y = Returned standard
      /\ int z = Returned fast
      /\ v = VDict [("timestamp", VStr (now_gas w));
                    ("safe_gas_price", VInt safe);
                    ("standard_gas_price", VInt standard);
                    ("fast_gas_price", VInt fast)].
Proof.
  intros w v H. unfold collect_gas_data in H.
  apply iobind_returned in H as (key & _ & H & _).
  apply try_except_returned in H as [H _]; [|reraises].
  unfold gas_request in H.
  apply iobind_returned in H as (r & Hr & H & _).
  apply iobind_returned in H as (data & Hdata & H & _).
  apply iobind_returned in H as (safe & Hsafe & H & _).
  apply iobind_returned in H as (standard & Hstandard & H & _).
  apply iobind_returned in H as (fast & Hfast & H & _).
  apply iobind_returned in H as (u & _ & H & _).
  unfold outcome, lift, ret, int_field in *. cbn [snd] in *.
  injection H as <-.
  destruct (subscript2 data "result" "SafeGasPrice") as [x|] eqn:Hx;
    cbn [bind] in Hsafe; [|discriminate Hsafe].
  destruct (subscript2 data "result" "StandardGasPrice") as [y|] eqn:Hy;
    cbn [bind] in Hstandard; [|discriminate Hstandard].
  destruct (subscript2 data "result" "FastGasPrice") as [z|] eqn:Hz;
    cbn [bind] in Hfast; [|discriminate Hfast].
  exists r, data, x, y, z, safe, standard, fast.
  repeat split; assumption.
Qed.

End CycleFacts.

(* ================================================================== *)
(** * Further properties of the loops                                *)
(* ================================================================== *)

Module LoopCounts.
Import Py Http Effects EffectsFacts TraceMeasures CycleFacts.
Local Open Scope io_scope.

Lemma single_event_batches sec data verdict :
  every_delivery (fun p => List.length (Collector.batch p) = 1%nat)
                 (trace (Collector.send_to_event_hub sec data verdict)).
Proof.
  unfold Collector.send_to_event_hub.
  apply every_try; [|no_delivery_in_handler].
  cbv zeta.
  apply every_bind; [|intros; apply every_delivery_log].
  apply every_delivery_one. reflexivity.
Qed.

Lemma tick_single_event_batches interval sec w :
  every_delivery (fun p => List.length (Collector.batch p) = 1%nat)
                 (trace (Collector.tick interval sec w)).
Proof.
  unfold Collector.tick, Collector.tick_body.
  apply every_try; [|no_delivery_in_handler].
  apply every_bind; [apply every_delivery_nil | intros data _].
  apply every_bind; [apply single_event_batches | intros _ _].
  cbv zeta.
  apply every_bind; [apply every_delivery_log | intros _ _].
  intros p verdict [H|[]]. discriminate H.
Qed.

Lemma tick_delivers_once interval sec w :
  deliveries (trace (Collector.tick interval sec w)) = 1%nat.
Proof.
  unfold Collector.tick. destruct (Collector.sink w) as [e|] eqn:Hsink.
  - destruct (LoopFacts.tick_body_refused interval sec w e Hsink)
      as (data & _ & ->). reflexivity.
  - destruct (LoopFacts.tick_body_accepted interval sec w Hsink)
      as (data & _ & ->). reflexivity.
Qed.

Lemma iterate_deliveries interval sec ws :
  deliveries (trace (Collector.iterate interval sec ws)) = List.length ws
  /\ every_delivery (fun p => List.length (Collector.batch p) = 1%nat)
                    (trace (Collector.iterate interval sec ws)).
Proof.
  induction ws as [|w ws [IHn IHe]]; cbn [Collector.iterate List.length].
  - split; [reflexivity | apply every_delivery_nil].
  - split.
    + pose proof (tick_delivers_once interval sec w) as Hone.
      pose proof (LoopFacts.tick_returns interval sec w) as Hret.
      unfold iobind, outcome, trace in *.
      destruct (Collector.tick interval sec w) as [t r]. cbn [fst snd] in *.
      subst r. destruct (Collector.iterate interval sec ws) as [t' r'].
      cbn [fst] in *. rewrite deliveries_app. lia.
    + apply every_bind; [apply tick_single_event_batches | intros _ _].
      exact IHe.
Qed.


End LoopCounts.

Module MoreCycleFacts.
Import Py Http Effects EffectsFacts TraceMeasures CycleFacts CollectorNew.
Local Open Scope io_scope.

Example token_transfers_collected :
  outcome (collect_erc20_transfers MoreSamples.gas_world MoreSamples.token
             MoreSamples.token_address)
  = Returned MoreSamples.token_transfers.
Proof. vm_compute. reflexivity. Qed.

Lemma transfers_one_record_per_log_witness :
  exists latest r data entries,
    get_latest_block MoreSamples.gas_world MoreSamples.token = Returned latest
    /\ logs MoreSamples.token MoreSamples.token_address (latest - 100)
       = Returned r
    /\ json r = Returned data
    /\ Py.bind (get data "result" (VList [])) iter = Returned entries
    /\ List.length MoreSamples.token_transfers = List.length entries
    /\ forall k log,
        nth_error entries k = Some log ->
        exists t,
          transfer_record (now_log MoreSamples.token k) log = Returned t
          /\ nth_error MoreSamples.token_transfers k = Some t.
Proof.
  apply (transfers_one_record_per_log MoreSamples.gas_world MoreSamples.token
           MoreSamples.token_address MoreSamples.token_transfers).
  vm_compute. reflexivity.
Defined.

Lemma gas_record_has_no_default_witness :
  exists r data x y z safe standard fast,
    gas MoreSamples.gas_world = Returned r
    /\ json r = Returned data
    /\ subscript2 data "result" "SafeGasPrice" = Returned x
    /\ subscript2 data "result" "StandardGasPrice" = Returned y
    /\ subscript2 data "result" "FastGasPrice" = Returned z
    /\ int x = Returned safe
    /\ int y = Returned standard
    /\ int z = Returned fast
    /\ VDict [("timestamp", VStr Samples.t0);
              ("safe_gas_price", VInt 10);
              ("standard_gas_price", VInt 15);
              ("fast_gas_price", VInt 25)]
       = VDict [("timestamp", VStr (now_gas MoreSamples.gas_world));
                ("safe_gas_price", VInt safe);
                ("standard_gas_price", VInt standard);
                ("fast_gas_price", VInt fast)].
Proof.
  apply (gas_record_has_no_default MoreSamples.gas_world).
  vm_compute. reflexivity.
Defined.

(** X18: the second variant's loop does not take the duration of the
    work off the pause: a tick whose cycle returned sleeps the whole
    configured interval, once, and the cycle itself never sleeps. *)
Theorem continuous_tick_sleeps_full_interval :
  forall interval w,
    sleeps (trace (run_collection_cycle w)) = []
    /\ (outcome (run_collection_cycle w) = Returned tt ->
        sleeps (trace (tick interval w)) = [inject_Z interval]).
Proof.
  intros interval w. split.
  - exact (LoopFacts.run_collection_cycle_sleepless w).
  - intro H. rewrite LoopFacts.tick_sleeps_new, H. reflexivity.
Qed.

Lemma continuous_tick_sleeps_full_interval_witness :
  sleeps (trace (tick 300
                   (Samples.new_world (Samples.ok Samples.price_body)
                      (Samples.ok Samples.gas_body) None None)))
  = [inject_Z 300].
Proof.
  apply (proj2 (continuous_tick_sleeps_full_interval 300
                  (Samples.new_world (Samples.ok Samples.price_body)
                     (Samples.ok Samples.gas_body) None None))).
  vm_compute. reflexivity.
Defined.



End MoreCycleFacts.
